(* ===================================================================== *)
(*  utils/TwoPhaser.py : two-phase commit on a primary / backup /         *)
(*  temporary triple of files, as a shallow embedding.                    *)
(*                                                                       *)
(*  The Python class is embedded method by method over a small state and  *)
(*  exception monad.  The file system is a finite map from path strings   *)
(*  to file contents, together with the trace of calls made on it and     *)
(*  the warnings logged.                                                  *)
(* ===================================================================== *)

From stdpp Require Import gmap strings list fin_maps.

(* --------------------------------------------------------------------- *)
(*  1. The host environment: exceptions, open modes, files               *)
(* --------------------------------------------------------------------- *)

(** The exceptions that can travel through the code.  [CallerError] stands
    for whatever the body of the caller's with-block raises. *)
Inductive exn : Type :=
  | FileNotFoundError
  | FileExistsError
  | UnsupportedOperation
  | AttributeError
  | WritableMismatch
  | CallerError (tag : nat).

Global Instance exn_eq_dec : EqDecision exn.
Proof. solve_decision. Defined.

(** The open configuration.  The source forwards [*args, **kwargs] to
    [Path.open] verbatim; what decides the behaviour of the handle is the
    mode, one of Python's eight (text or binary, encoding and buffering do
    not change whether the file must exist or whether it can be written). *)
Inductive mode : Type :=
  | Mr        (* 'r'  : read, file must exist                     *)
  | Mw        (* 'w'  : write, create or truncate                 *)
  | Ma        (* 'a'  : write at the end, create when missing     *)
  | Mx        (* 'x'  : write, create, fail when the file exists  *)
  | Mr_plus   (* 'r+' : read and write, file must exist           *)
  | Mw_plus   (* 'w+' *)
  | Ma_plus   (* 'a+' *)
  | Mx_plus.  (* 'x+' *)

Global Instance mode_eq_dec : EqDecision mode.
Proof. solve_decision. Defined.

(** [io.IOBase.writable()] and [readable()] as decided by the mode. *)
Definition mode_writable (m : mode) : bool :=
  match m with Mr => false | _ => true end.

Definition mode_readable (m : mode) : bool :=
  match m with Mw | Ma | Mx => false | _ => true end.

(** Calls issued on the file system, in the order they are made. *)
Inductive fs_op : Type :=
  | OpOpen (p : string) (m : mode)
  | OpClose (p : string)
  | OpUnlink (p : string)
  | OpRename (src dst : string).

(** [logger.warning] records (debug records are not modelled). *)
Inductive warning : Type :=
  | WarnTemporaryExists (p : string)
  | WarnFailureBefore1b
  | WarnRollingForward
  | WarnFirstPrimaryNotCreated
  | WarnReadingFromBackup (p : string).

Record world : Type := World {
  files : gmap string string;     (* path |-> content of the regular files *)
  ops : list fs_op;               (* calls made so far, oldest first *)
  warnings : list warning         (* warnings logged so far, oldest first *)
}.

(** A file object returned by [open]. *)
Record file_obj : Type := FileObj {
  name : string;
  fmode : mode;
  pos : nat
}.

(** Arguments of [two_phase_open]: [args[0]] and the rest. *)
Record open_args : Type := OpenArgs {
  primary : string;
  config : mode
}.

(** The attributes of a [TwoPhaser] instance.  [_writable] and
    [_writable_actual] do not exist until [__enter__] assigns them, hence
    the options.  The three path attributes are assigned in [__enter__]
    from [args[0]] before anything reads them, and never again: they are
    the functions [_primary_path], [_backup_path], [_temporary_path] of
    [_args] below, and [self._primary_path] reads [_primary_path (_args
    self)]. *)
Record TwoPhaser : Type := MkTwoPhaser {
  _file : option file_obj;
  _args : open_args;
  _writable : option bool;
  _writable_actual : option bool
}.

Definition _primary_path (a : open_args) : string := primary a.
Definition _backup_path (a : open_args) : string := primary a +:+ ".bak".
Definition _temporary_path (a : open_args) : string := primary a +:+ ".tmp".
Definition probe_path (a : open_args) : string := primary a +:+ ".prb".

(** [TwoPhaser.__init__] *)
Definition __init__ (a : open_args) : TwoPhaser :=
  {| _file := None; _args := a; _writable := None; _writable_actual := None |}.

(** [two_phase_open] *)
Definition two_phase_open (a : open_args) : TwoPhaser := __init__ a.

(* --------------------------------------------------------------------- *)
(*  2. The state and exception monad                                     *)
(* --------------------------------------------------------------------- *)

Record state : Type := State {
  self : TwoPhaser;
  env : world
}.

Inductive result (A : Type) : Type :=
  | Ok (a : A)
  | Raise (e : exn).
Arguments Ok {A} a.
Arguments Raise {A} e.

Definition M (A : Type) : Type := state → result A * state.

Definition ret {A} (a : A) : M A := λ s, (Ok a, s).
Definition bind {A B} (c : M A) (k : A → M B) : M B := λ s,
  match c s with
  | (Ok a, s') => k a s'
  | (Raise e, s') => (Raise e, s')
  end.

Declare Scope py_scope.
Delimit Scope py_scope with py.
Notation "x ← y ; z" := (bind y (λ x : _, z))
  (at level 20, y at level 100, z at level 200, only parsing) : py_scope.
Notation "' x ← y ; z" := (bind y (λ x : _, z))
  (at level 20, x pattern, y at level 100, z at level 200, only parsing) : py_scope.
Notation "x ;; z" := (bind x (λ _, z))
  (at level 100, z at level 200, only parsing, right associativity) : py_scope.
Open Scope py_scope.

Definition raise {A} (e : exn) : M A := λ s, (Raise e, s).

(** [try: c  except <kind>: h], for the kinds selected by [catches]. *)
Definition try_except {A} (c : M A) (catches : exn → bool) (h : M A) : M A :=
  λ s, match c s with
       | (Ok a, s') => (Ok a, s')
       | (Raise e, s') => if catches e then h s' else (Raise e, s')
       end.

(** [try: c  finally: f]; an exception of [f] replaces the outcome of [c]. *)
Definition try_finally {A} (c : M A) (f : M unit) : M A :=
  λ s, match c s with
       | (r, s') => match f s' with
                    | (Ok _, s'') => (r, s'')
                    | (Raise e, s'') => (Raise e, s'')
                    end
       end.

(** [try: c  except: h; raise] *)
Definition try_except_reraise {A} (c : M A) (h : M unit) : M A :=
  λ s, match c s with
       | (Ok a, s') => (Ok a, s')
       | (Raise e, s') => match h s' with
                          | (Ok _, s'') => (Raise e, s'')
                          | (Raise e', s'') => (Raise e', s'')
                          end
       end.

(** [x and y] on booleans: [y] is evaluated only when [x] is true. *)
Definition py_and (x y : M bool) : M bool :=
  b ← x; if b then y else ret false.

(** [not x] *)
Definition py_not (x : M bool) : M bool :=
  b ← x; ret (negb b).

Definition is_FileNotFoundError (e : exn) : bool :=
  match e with FileNotFoundError => true | _ => false end.

Definition get_self : M TwoPhaser := λ s, (Ok (self s), s).
Definition set_self (f : TwoPhaser → TwoPhaser) : M unit :=
  λ s, (Ok tt, {| self := f (self s); env := env s |}).
Definition get_env : M world := λ s, (Ok (env s), s).
Definition set_env (f : world → world) : M unit :=
  λ s, (Ok tt, {| self := self s; env := f (env s) |}).

Definition set__file (o : option file_obj) (t : TwoPhaser) : TwoPhaser :=
  {| _file := o; _args := _args t; _writable := _writable t;
     _writable_actual := _writable_actual t |}.
Definition set__writable (b : bool) (t : TwoPhaser) : TwoPhaser :=
  {| _file := _file t; _args := _args t; _writable := Some b;
     _writable_actual := _writable_actual t |}.
Definition set__writable_actual (b : bool) (t : TwoPhaser) : TwoPhaser :=
  {| _file := _file t; _args := _args t; _writable := _writable t;
     _writable_actual := Some b |}.

(** Reading [self._writable]: an [AttributeError] while it is unset. *)
Definition get__writable : M bool :=
  t ← get_self;
  match _writable t with
  | Some b => ret b
  | None => raise AttributeError
  end.

(* --------------------------------------------------------------------- *)
(*  3. pathlib and file objects                                          *)
(* --------------------------------------------------------------------- *)

(** The files live in one existing directory in which the process may
    create, rename and remove files, and every path names a regular file or
    nothing.  Under that assumption the only errors of the calls below are
    the ones modelled: [FileNotFoundError] from [unlink], [rename] and the
    read modes of [open], [FileExistsError] from the exclusive modes of
    [open], and [io.UnsupportedOperation] from reading or writing a handle
    whose mode does not allow it. *)

Definition has_file (fs : gmap string string) (p : string) : bool :=
  match fs !! p with Some _ => true | None => false end.

Definition record_op (o : fs_op) (w : world) : world :=
  {| files := files w; ops := ops w ++ [o]; warnings := warnings w |}.
Definition set_files (fs : gmap string string) (w : world) : world :=
  {| files := fs; ops := ops w; warnings := warnings w |}.

(** [logger.warning] *)
Definition log_warning (x : warning) : M unit :=
  set_env (λ w, {| files := files w; ops := ops w; warnings := warnings w ++ [x] |}).

(** [Path.exists] *)
Definition path_exists (p : string) : M bool :=
  w ← get_env; ret (has_file (files w) p).

(** [Path.unlink] *)
Definition path_unlink (p : string) : M unit :=
  set_env (record_op (OpUnlink p));;
  w ← get_env;
  if has_file (files w) p
  then set_env (set_files (delete p (files w)))
  else raise FileNotFoundError.

(** [Path.rename]: the source must exist; a file at the target is
    replaced, as [os.rename] does on POSIX. *)
Definition path_rename (src dst : string) : M unit :=
  set_env (record_op (OpRename src dst));;
  w ← get_env;
  match files w !! src with
  | Some c => set_env (set_files (<[dst := c]> (delete src (files w))))
  | None => raise FileNotFoundError
  end.

(** [Path.open] under the given mode. *)
Definition path_open (p : string) (m : mode) : M file_obj :=
  set_env (record_op (OpOpen p m));;
  w ← get_env;
  match m with
  | Mr | Mr_plus =>
      if has_file (files w) p
      then ret {| name := p; fmode := m; pos := 0 |}
      else raise FileNotFoundError
  | Mw | Mw_plus =>
      set_env (set_files (<[p := ""]> (files w)));;
      ret {| name := p; fmode := m; pos := 0 |}
  | Ma | Ma_plus =>
      match files w !! p with
      | Some c => ret {| name := p; fmode := m; pos := String.length c |}
      | None =>
          set_env (set_files (<[p := ""]> (files w)));;
          ret {| name := p; fmode := m; pos := 0 |}
      end
  | Mx | Mx_plus =>
      if has_file (files w) p
      then raise FileExistsError
      else set_env (set_files (<[p := ""]> (files w)));;
           ret {| name := p; fmode := m; pos := 0 |}
  end.

(** [file.writable()] *)
Definition file_writable (f : file_obj) : bool := mode_writable (fmode f).

(** [file.close()] *)
Definition file_close (f : file_obj) : M unit :=
  set_env (record_op (OpClose (name f))).

Definition is_append (m : mode) : bool :=
  match m with Ma | Ma_plus => true | _ => false end.

(** Overwrite [c] with [s] from offset [n] on. *)
Definition write_at (n : nat) (s c : string) : string :=
  String.substring 0 n c +:+ s +:+
  String.substring (n + String.length s) (String.length c - (n + String.length s)) c.

(** [file.write(s)]: at the current position, or at the end in an append
    mode.  The file is gone from the map only if somebody removed it under
    the handle; the write then goes to the orphaned inode and the map is
    left alone. *)
Definition file_write (f : file_obj) (s : string) : M file_obj :=
  if file_writable f then
    w ← get_env;
    match files w !! name f with
    | Some c =>
        let n := if is_append (fmode f) then String.length c else pos f in
        set_env (set_files (<[name f := write_at n s c]> (files w)));;
        ret {| name := name f; fmode := fmode f; pos := n + String.length s |}
    | None => ret {| name := name f; fmode := fmode f; pos := pos f + String.length s |}
    end
  else raise UnsupportedOperation.

(** [file.read()]: everything from the current position on.  The content
    of a file is kept as the text its handles read and write: the model
    has no encoding and no translation of line ends, so what it says of
    the text read holds of the real one for content that the text layer
    hands back as it was written. *)
Definition file_read (f : file_obj) : M (string * file_obj) :=
  if mode_readable (fmode f) then
    w ← get_env;
    match files w !! name f with
    | Some c =>
        ret (String.substring (pos f) (String.length c - pos f) c,
              {| name := name f; fmode := fmode f; pos := Nat.max (pos f) (String.length c) |})
    | None => ret ("", f)
    end
  else raise UnsupportedOperation.

(* --------------------------------------------------------------------- *)
(*  4. The methods of TwoPhaser                                          *)
(* --------------------------------------------------------------------- *)

(** [TwoPhaser._safe_delete] *)
Definition _safe_delete (p : string) : M unit :=
  try_except (path_unlink p) is_FileNotFoundError (ret tt).

(** [TwoPhaser._safe_rename] *)
Definition _safe_rename (path_from path_to : string) : M unit :=
  try_except (path_rename path_from path_to) is_FileNotFoundError (ret tt).

(** [TwoPhaser._recover] *)
Definition _recover : M unit :=
  t ← get_self;
  temporary_exists ← path_exists (_temporary_path (_args t));
  if temporary_exists then
    log_warning (WarnTemporaryExists (_temporary_path (_args t)));;
    primary_exists ← path_exists (_primary_path (_args t));
    if primary_exists then
      log_warning WarnFailureBefore1b;;
      _safe_delete (_temporary_path (_args t))
    else
      backup_exists ← path_exists (_backup_path (_args t));
      if backup_exists then
        log_warning WarnRollingForward;;
        _safe_rename (_temporary_path (_args t)) (_primary_path (_args t))
      else
        log_warning WarnFirstPrimaryNotCreated;;
        _safe_delete (_temporary_path (_args t))
  else ret tt.

(** [TwoPhaser._close] *)
Definition _close (normal : bool) : M unit :=
  t ← get_self;
  match _file t with
  | Some f =>
      file_close f;;
      set_self (set__file None);;
      writable ← get__writable;
      if writable then
        if normal then
          primary_exists ← path_exists (_primary_path (_args t));
          (if primary_exists then
             _safe_delete (_backup_path (_args t));;
             _safe_rename (_primary_path (_args t)) (_backup_path (_args t))
           else ret tt);;
          _safe_rename (_temporary_path (_args t)) (_primary_path (_args t))
        else
          _safe_delete (_temporary_path (_args t))
      else ret tt
  | None => ret tt
  end.

(** The probe of [__enter__] (the outer [try] ... [except
    FileNotFoundError] around the probe file). *)
Definition enter_probe : M unit :=
  t ← get_self;
  try_except
    (try_finally
       (f1 ← path_open (probe_path (_args t)) (config (_args t));
        try_finally
          (set_self (set__writable (file_writable f1)))
          (file_close f1))
       (probe_exists ← path_exists (probe_path (_args t));
        if probe_exists then path_unlink (probe_path (_args t)) else ret tt))
    is_FileNotFoundError
    (set_self (set__writable false)).

(** The choice of the file the handle is opened on. *)
Definition enter_select : M string :=
  t ← get_self;
  writable ← get__writable;
  if writable then ret (_temporary_path (_args t))
  else
    backup_only ← py_and (path_exists (_backup_path (_args t)))
                         (py_not (path_exists (_primary_path (_args t))));
    if backup_only then
      log_warning (WarnReadingFromBackup (_backup_path (_args t)));;
      ret (_backup_path (_args t))
    else ret (_primary_path (_args t)).

(** The open of the chosen file and the check of its [writable()] against
    the probe. *)
Definition enter_open (path_to_use : string) : M file_obj :=
  t ← get_self;
  f ← path_open path_to_use (config (_args t));
  set_self (set__file (Some f));;
  try_except_reraise
    (set_self (set__writable_actual (file_writable f));;
     writable ← get__writable;
     if negb (eqb writable (file_writable f))
     then raise WritableMismatch
     else ret tt)
    (_close false);;
  ret f.

(** [TwoPhaser.__enter__] *)
Definition __enter__ : M file_obj :=
  enter_probe;;
  _recover;;
  path_to_use ← enter_select;
  enter_open path_to_use.

(** [TwoPhaser.__exit__]; [exception_type] is [None] when the with-block
    ended normally. *)
Definition __exit__ (exception_type : option exn) : M bool :=
  _close (match exception_type with None => true | Some _ => false end);;
  ret false.

(* --------------------------------------------------------------------- *)
(*  5. The caller: a with-statement around two_phase_open                *)
(* --------------------------------------------------------------------- *)

(** What the body of the with-block does with the handle. *)
Inductive action : Type :=
  | DoWrite (s : string)
  | DoRead
  | DoRaise (e : exn).

(** Runs the body; the result is what the reads returned, in order. *)
Fixpoint run_body (b : list action) (f : file_obj) : M (list string) :=
  match b with
  | [] => ret []
  | DoWrite s :: b' => f' ← file_write f s; run_body b' f'
  | DoRead :: b' =>
      '(c, f') ← file_read f;
      r ← run_body b' f';
      ret (c :: r)
  | DoRaise e :: _ => raise e
  end.

(** [with mgr as f: body], for a context manager given by its two
    methods: an exception of [enter] propagates without [exit] being
    called; an exception of the body is handed to [exit] and raised again
    unless [exit] returns true. *)
Definition with_stmt {A B} (enter : M A) (exit : option exn → M bool)
    (body : A → M B) (default : B) : M B :=
  f ← enter;
  λ s, match body f s with
       | (Ok r, s') =>
           match exit None s' with
           | (Ok _, s'') => (Ok r, s'')
           | (Raise e, s'') => (Raise e, s'')
           end
       | (Raise e, s') =>
           match exit (Some e) s' with
           | (Ok suppress, s'') =>
               if suppress then (Ok default, s'') else (Raise e, s'')
           | (Raise e', s'') => (Raise e', s'')
           end
       end.

(** [with two_phase_open(primary, mode) as f: body], run in the world [w]. *)
Definition session (a : open_args) (b : list action) (w : world)
    : result (list string) * world :=
  match with_stmt __enter__ __exit__ (run_body b) []
          {| self := two_phase_open a; env := w |} with
  | (r, s) => (r, env s)
  end.

(* --------------------------------------------------------------------- *)
(*  6. Definitions used to state the results                             *)
(* --------------------------------------------------------------------- *)

(** The files [_recover] leaves behind. *)
Definition recover_files (a : open_args) (fs : gmap string string) : gmap string string :=
  match fs !! _temporary_path a, fs !! _primary_path a, fs !! _backup_path a with
  | Some ct, None, Some _ => <[_primary_path a := ct]> (delete (_temporary_path a) fs)
  | Some _, _, _ => delete (_temporary_path a) fs
  | None, _, _ => fs
  end.

(** The content of the primary once recovery has run. *)
Definition recovered_primary (a : open_args) (fs : gmap string string) : option string :=
  match fs !! _temporary_path a, fs !! _primary_path a, fs !! _backup_path a with
  | Some ct, None, Some _ => Some ct
  | _, cp, _ => cp
  end.

(** The files a commit leaves behind: the demotion of the primary when
    there is one, then the promotion of the temporary file. *)
Definition commit_files (a : open_args) (fs : gmap string string) : gmap string string :=
  let fs1 := match fs !! _primary_path a with
             | Some cp => <[_backup_path a := cp]>
                            (delete (_primary_path a) (delete (_backup_path a) fs))
             | None => fs
             end in
  match fs1 !! _temporary_path a with
  | Some ct => <[_primary_path a := ct]> (delete (_temporary_path a) fs1)
  | None => fs1
  end.

Definition close_files (a : open_args) (writable normal : bool)
    (fs : gmap string string) : gmap string string :=
  if writable then
    if normal then commit_files a fs else delete (_temporary_path a) fs
  else fs.

(** An object and a world at the close of a second write: the handle is
    on T, which holds the new content, and P holds the old one. *)
Definition writing_object : TwoPhaser :=
  {| _file := Some {| name := "f.tmp"; fmode := Mw; pos := 3 |};
     _args := OpenArgs "f" Mw;
     _writable := Some true; _writable_actual := Some true |}.

Definition written_world : world :=
  {| files := {[ "f" := "old"; "f.tmp" := "new" ]}; ops := []; warnings := [] |}.

(** What the probe concludes, by mode and by whether a probe file was left
    over: the value assigned to [_writable], or the exception that leaves
    [__enter__]. *)
Definition probe_outcome (m : mode) (probe_exists : bool) : result bool :=
  match m with
  | Mr => Ok false
  | Mr_plus => Ok probe_exists
  | Mw | Mw_plus | Ma | Ma_plus => Ok true
  | Mx | Mx_plus => if probe_exists then Raise FileExistsError else Ok true
  end.

Definition probe_result (o : result bool) : result unit :=
  match o with Ok _ => Ok tt | Raise e => Raise e end.

Definition probe_self (o : result bool) (t : TwoPhaser) : TwoPhaser :=
  match o with Ok b => set__writable b t | Raise _ => t end.

(** Modes under which opening a missing file creates it. *)
Definition mode_creates (m : mode) : bool :=
  match m with Mr | Mr_plus => false | _ => true end.

(** The path a read-only session is served from. *)
Definition serves_backup (a : open_args) (fs : gmap string string) : bool :=
  has_file fs (_backup_path a) && negb (has_file fs (_primary_path a)).

Definition backing_path (a : open_args) (fs : gmap string string) : string :=
  if serves_backup a fs then _backup_path a else _primary_path a.

Definition backup_warning (a : open_args) (fs : gmap string string) : list warning :=
  if serves_backup a fs then [WarnReadingFromBackup (_backup_path a)] else [].

(** What a state has outside of one file. *)
Definition same_but (p : string) (s s' : state) : Prop :=
  self s' = self s ∧ ops (env s') = ops (env s) ∧
  warnings (env s') = warnings (env s) ∧
  (∀ q, q ≠ p → files (env s') !! q = files (env s) !! q) ∧
  (files (env s) !! p = None → files (env s') !! p = None).

Definition is_ok {A} (r : result A) : bool :=
  match r with Ok _ => true | Raise _ => false end.

Definition exception_of {A} (r : result A) : option exn :=
  match r with Ok _ => None | Raise e => Some e end.

(** A crash between the demotion of the primary and the promotion of the
    temporary file leaves T and B without P. *)
Definition interrupted_world : world :=
  {| files := {[ "f.tmp" := "stale"; "f.bak" := "old" ]}; ops := []; warnings := [] |}.

Definition failing_write : list action := [DoWrite "new"; DoRaise (CallerError 0)].

(** A world with one committed write. *)
Definition committed_world : world :=
  {| files := {[ "f" := "old" ]}; ops := []; warnings := [] |}.

(** [for x in xs: with two_phase_open(primary, mode) as f: f.write(x)],
    with the outcome of every session. *)
Fixpoint write_sessions (a : open_args) (xs : list string) (w : world)
    : list (result (list string)) * world :=
  match xs with
  | [] => ([], w)
  | x :: xs' =>
      let '(r, w1) := session a [DoWrite x] w in
      let '(rs, w2) := write_sessions a xs' w1 in
      (r :: rs, w2)
  end.

Definition all_ok {A} (rs : list (result A)) : bool := forallb is_ok rs.

(** What a body made of writes only has written: the texts, in order. *)
Definition written (xs : list string) : string := foldr String.append "" xs.

(** The state a with-statement around [two_phase_open] ends in, object
    included. *)
Definition session_end (a : open_args) (b : list action) (w : world) : state :=
  (with_stmt __enter__ __exit__ (run_body b) []
     {| self := two_phase_open a; env := w |}).2.

(** What a read of the whole file gives for the files [fs]: the primary
    recovery leaves when there is one, else the backup, else nothing. *)
Definition read_outcome (a : open_args) (fs : gmap string string)
    : result (list string) :=
  match recovered_primary a fs with
  | Some c => Ok [c]
  | None =>
      match fs !! _backup_path a with
      | Some c => Ok [c]
      | None => Raise FileNotFoundError
      end
  end.

(** [prepare_files] of the tests: the staged texts of the files asked for. *)
Definition staged (p b t : bool) : world :=
  {| files := (if p then {[ "s.txt" := "primary text" ]} else ∅) ∪
              (if b then {[ "s.txt.bak" := "backup text" ]} else ∅) ∪
              (if t then {[ "s.txt.tmp" := "temporary text" ]} else ∅);
     ops := []; warnings := [] |}.

Definition files_present (w : world) : list bool :=
  [has_file (files w) "s.txt"; has_file (files w) "s.txt.bak";
   has_file (files w) "s.txt.tmp"; has_file (files w) "s.txt.prb"].

Definition staged_read (w : world) := session (OpenArgs "s.txt" Mr) [DoRead] w.

Definition staged_write (x : string) (w : world) :=
  session (OpenArgs "s.txt" Mw) [DoWrite x] w.

(* --------------------------------------------------------------------- *)
(*  7. The four paths are pairwise distinct                              *)
(* --------------------------------------------------------------------- *)

Lemma string_app_length (s1 s2 : string) :
  String.length (s1 +:+ s2) = String.length s1 + String.length s2.
Proof. induction s1 as [|c s1 IH]; simpl; [done | by rewrite IH]. Qed.

Lemma path_suffix_ne (p s : string) : s ≠ "" → p +:+ s ≠ p.
Proof.
  intros Hs Heq. apply (f_equal String.length) in Heq.
  rewrite string_app_length in Heq. destruct s; [done | simpl in Heq; lia].
Qed.

Lemma path_suffixes_ne (p s1 s2 : string) : s1 ≠ s2 → p +:+ s1 ≠ p +:+ s2.
Proof. intros Hne Heq. by apply (inj _) in Heq. Qed.

Section paths.
Variable a : open_args.

Lemma temporary_ne_primary : _temporary_path a ≠ _primary_path a.
Proof. by apply path_suffix_ne. Qed.
Lemma backup_ne_primary : _backup_path a ≠ _primary_path a.
Proof. by apply path_suffix_ne. Qed.
Lemma probe_ne_primary : probe_path a ≠ _primary_path a.
Proof. by apply path_suffix_ne. Qed.
Lemma temporary_ne_backup : _temporary_path a ≠ _backup_path a.
Proof. by apply path_suffixes_ne. Qed.
Lemma probe_ne_backup : probe_path a ≠ _backup_path a.
Proof. by apply path_suffixes_ne. Qed.
Lemma probe_ne_temporary : probe_path a ≠ _temporary_path a.
Proof. by apply path_suffixes_ne. Qed.
End paths.

(** Brings the six disequalities into the context. *)
Ltac name_paths a :=
  pose proof (temporary_ne_primary a); pose proof (backup_ne_primary a);
  pose proof (probe_ne_primary a); pose proof (temporary_ne_backup a);
  pose proof (probe_ne_backup a); pose proof (probe_ne_temporary a).

(* --------------------------------------------------------------------- *)
(*  8. Running the monad                                                 *)
(* --------------------------------------------------------------------- *)

Lemma bind_ok {A B} (c : M A) (k : A → M B) s a s' :
  c s = (Ok a, s') → bind c k s = k a s'.
Proof. unfold bind. by intros ->. Qed.

Lemma bind_raise {A B} (c : M A) (k : A → M B) s e s' :
  c s = (Raise e, s') → bind c k s = (Raise e, s').
Proof. unfold bind. by intros ->. Qed.

(** Reduces the attributes of an updated object. *)
Ltac obj_simpl :=
  cbn [_file _args _writable _writable_actual name fmode pos
       set__file set__writable set__writable_actual].

(** Unfolds the monad, the primitives and the projections of states and
    worlds; the methods themselves are unfolded where a proof needs them. *)
Ltac unfold_py :=
  cbv beta iota zeta delta
    [bind ret raise try_except try_finally try_except_reraise py_and py_not
     get_self set_self get_env set_env get__writable log_warning
     path_exists path_unlink path_rename path_open file_close has_file
     record_op set_files is_FileNotFoundError _safe_delete _safe_rename
     file_writable mode_writable negb andb eqb
     self env files ops warnings];
  obj_simpl.

(** One step on a goal that looks a path up in the map [fs] (or in an
    update of it) or reads an attribute fixed by a hypothesis. *)
Ltac map_step fs :=
  first
  [ rewrite lookup_insert_eq
  | rewrite lookup_delete_eq
  | rewrite lookup_insert_ne by done
  | rewrite lookup_delete_ne by done
  | match goal with
    | H : fs !! ?p = _ |- context [fs !! ?p] => rewrite H
    | H : _file ?t = _ |- context [_file ?t] => rewrite H
    | H : _writable ?t = _ |- context [_writable ?t] => rewrite H
    end
  | match goal with
    | |- context [match fs !! ?p with _ => _ end] => destruct (fs !! p) eqn:?
    end ].

Ltac exec fs := repeat (map_step fs; cbv beta iota; obj_simpl).

(* --------------------------------------------------------------------- *)
(*  9. The Recovery Engine                                               *)
(* --------------------------------------------------------------------- *)

Lemma _recover_run (t : TwoPhaser) (w : world) :
  ∃ os ws, _recover (State t w) =
    (Ok tt, State t {| files := recover_files (_args t) (files w);
                       ops := ops w ++ os; warnings := warnings w ++ ws |}).
Proof.
  destruct w as [fs os ws]. unfold _recover, recover_files.
  name_paths (_args t). unfold_py. exec fs; rewrite <- ?app_assoc.
  - by eexists [_], _.
  - by eexists [_], _.
  - by eexists [_], _.
  - exists [], []. by rewrite !app_nil_r.
Qed.

Section recover_files.
Context (a : open_args) (fs : gmap string string).

Lemma recover_files_temporary : recover_files a fs !! _temporary_path a = None.
Proof.
  unfold recover_files. name_paths a.
  destruct (fs !! _temporary_path a) eqn:?, (fs !! _primary_path a) eqn:?,
    (fs !! _backup_path a) eqn:?; by simplify_map_eq.
Qed.

Lemma recover_files_primary :
  recover_files a fs !! _primary_path a = recovered_primary a fs.
Proof.
  unfold recover_files, recovered_primary. name_paths a.
  destruct (fs !! _temporary_path a) eqn:?, (fs !! _primary_path a) eqn:?,
    (fs !! _backup_path a) eqn:?; by simplify_map_eq.
Qed.

Lemma recover_files_other (q : string) :
  q ≠ _temporary_path a → q ≠ _primary_path a →
  recover_files a fs !! q = fs !! q.
Proof.
  unfold recover_files. name_paths a. intros ??.
  destruct (fs !! _temporary_path a) eqn:?, (fs !! _primary_path a) eqn:?,
    (fs !! _backup_path a) eqn:?; by simplify_map_eq.
Qed.

Lemma recover_files_backup : recover_files a fs !! _backup_path a = fs !! _backup_path a.
Proof.
  apply recover_files_other;
    [apply not_eq_sym, temporary_ne_backup | apply backup_ne_primary].
Qed.

Lemma recover_files_probe : recover_files a fs !! probe_path a = fs !! probe_path a.
Proof.
  apply recover_files_other; [apply probe_ne_temporary | apply probe_ne_primary].
Qed.

Lemma recover_files_stable : fs !! _temporary_path a = None → recover_files a fs = fs.
Proof. unfold recover_files. by intros ->. Qed.
End recover_files.

(** C1.  Decision table of the Recovery Engine.  [_recover] never raises
    and leaves the object alone; on the world it does exactly one thing,
    chosen by which of T, P and B exist: T and P: one unlink of T; T and B
    without P: one rename of T to P; T alone: one unlink of T; no T:
    nothing at all, the world is the one it started from, so a lone backup
    is not renamed to the primary. *)
Theorem recover_decision_table (t : TwoPhaser) (w : world) :
  ∃ w', _recover (State t w) = (Ok tt, State t w') ∧
    match files w !! _temporary_path (_args t),
          files w !! _primary_path (_args t),
          files w !! _backup_path (_args t) with
    | Some _, Some _, _ =>
        ops w' = ops w ++ [OpUnlink (_temporary_path (_args t))] ∧
        files w' = delete (_temporary_path (_args t)) (files w)
    | Some ct, None, Some _ =>
        ops w' = ops w ++ [OpRename (_temporary_path (_args t)) (_primary_path (_args t))] ∧
        files w' = <[_primary_path (_args t) := ct]> (delete (_temporary_path (_args t)) (files w))
    | Some _, None, None =>
        ops w' = ops w ++ [OpUnlink (_temporary_path (_args t))] ∧
        files w' = delete (_temporary_path (_args t)) (files w)
    | None, _, _ => w' = w
    end.
Proof.
  destruct w as [fs os ws]. unfold _recover. name_paths (_args t).
  unfold_py. exec fs; eexists; (split; [reflexivity | by cbn]).
Qed.

(* --------------------------------------------------------------------- *)
(*  10. Closing: commit and rollback                                     *)
(* --------------------------------------------------------------------- *)

Lemma _close_run (t : TwoPhaser) (w : world) (f : file_obj) (b normal : bool) :
  _file t = Some f → _writable t = Some b →
  ∃ os, _close normal (State t w) =
    (Ok tt, State (set__file None t)
              {| files := close_files (_args t) b normal (files w);
                 ops := ops w ++ OpClose (name f) :: os;
                 warnings := warnings w |}).
Proof.
  destruct w as [fs os ws]. intros Hf Hw.
  unfold _close, close_files, commit_files. name_paths (_args t).
  unfold_py.
  destruct b, normal; exec fs; rewrite <- ?app_assoc;
    try rewrite (delete_id fs (_backup_path (_args t))) by done;
    try rewrite (delete_id fs (_temporary_path (_args t))) by done; by eexists.
Qed.

Lemma _close_no_file (normal : bool) (s : state) :
  _file (self s) = None → _close normal s = (Ok tt, s).
Proof. destruct s as [t w]. unfold _close. unfold_py. by intros ->. Qed.

Section commit_files.
Context (a : open_args) (fs : gmap string string).

Lemma commit_files_temporary : commit_files a fs !! _temporary_path a = None.
Proof.
  unfold commit_files. name_paths a.
  destruct (fs !! _primary_path a) eqn:?, (fs !! _temporary_path a) eqn:?;
    by simplify_map_eq.
Qed.

Lemma commit_files_primary :
  commit_files a fs !! _primary_path a = fs !! _temporary_path a.
Proof.
  unfold commit_files. name_paths a.
  destruct (fs !! _primary_path a) eqn:?, (fs !! _temporary_path a) eqn:?;
    by simplify_map_eq.
Qed.

Lemma commit_files_backup :
  commit_files a fs !! _backup_path a =
    match fs !! _primary_path a with
    | Some cp => Some cp
    | None => fs !! _backup_path a
    end.
Proof.
  unfold commit_files. name_paths a.
  destruct (fs !! _primary_path a) eqn:?, (fs !! _temporary_path a) eqn:?;
    by simplify_map_eq.
Qed.

Lemma commit_files_other (q : string) :
  q ≠ _temporary_path a → q ≠ _primary_path a → q ≠ _backup_path a →
  commit_files a fs !! q = fs !! q.
Proof.
  unfold commit_files. name_paths a. intros ???.
  destruct (fs !! _primary_path a) eqn:?, (fs !! _temporary_path a) eqn:?;
    by simplify_map_eq.
Qed.
End commit_files.

(** C2.  Commit.  When a writable session ends normally [__exit__] closes
    the handle and then: if P exists it unlinks B and renames P to B; in
    every case it then renames T to P.  Afterwards T is gone, P holds what
    T held, and B holds the old P when there was one; when there was no P
    the only change to the files is the move of T to P, so B is what it
    was.  No other file changes in either case. *)
Theorem exit_commit (t : TwoPhaser) (w : world) (f : file_obj) :
  _file t = Some f → _writable t = Some true →
  ∃ w', __exit__ None (State t w) = (Ok false, State (set__file None t) w') ∧
    ops w' = ops w ++ [OpClose (name f)]
               ++ (if has_file (files w) (_primary_path (_args t))
                   then [OpUnlink (_backup_path (_args t));
                         OpRename (_primary_path (_args t)) (_backup_path (_args t))]
                   else [])
               ++ [OpRename (_temporary_path (_args t)) (_primary_path (_args t))] ∧
    files w' !! _temporary_path (_args t) = None ∧
    files w' !! _primary_path (_args t) = files w !! _temporary_path (_args t) ∧
    files w' !! _backup_path (_args t) =
      (if has_file (files w) (_primary_path (_args t))
       then files w !! _primary_path (_args t)
       else files w !! _backup_path (_args t)) ∧
    (files w !! _primary_path (_args t) = None →
     files w' =
       match files w !! _temporary_path (_args t) with
       | Some ct => <[_primary_path (_args t) := ct]>
                      (delete (_temporary_path (_args t)) (files w))
       | None => files w
       end) ∧
    ∀ q, q ≠ _temporary_path (_args t) → q ≠ _primary_path (_args t) →
         q ≠ _backup_path (_args t) → files w' !! q = files w !! q.
Proof.
  destruct w as [fs os ws]. intros Hf Hw. unfold __exit__, _close.
  name_paths (_args t). unfold_py.
  exec fs; rewrite <- ?app_assoc; (eexists; split; [reflexivity|]);
    cbn [files ops]; repeat split; try (intros; by simplify_map_eq).
Qed.

Lemma exit_commit_witness :
  ∃ w', __exit__ None (State writing_object written_world)
          = (Ok false, State (set__file None writing_object) w') ∧
        files w' !! "f" = Some "new" ∧ files w' !! "f.bak" = Some "old".
Proof.
  destruct (exit_commit writing_object written_world _ eq_refl eq_refl)
    as (w' & Hx & _ & _ & HP & HB & _).
  exists w'. split; [exact Hx|]. split; [exact HP | exact HB].
Defined.

(* --------------------------------------------------------------------- *)
(*  11. The probe                                                        *)
(* --------------------------------------------------------------------- *)

Lemma enter_probe_run (t : TwoPhaser) (w : world) :
  let o := probe_outcome (config (_args t)) (has_file (files w) (probe_path (_args t))) in
  ∃ os, enter_probe (State t w) =
    (probe_result o,
     State (probe_self o t)
       {| files := delete (probe_path (_args t)) (files w);
          ops := ops w ++ OpOpen (probe_path (_args t)) (config (_args t)) :: os;
          warnings := warnings w |}).
Proof.
  destruct w as [fs os ws]. unfold enter_probe, probe_outcome. unfold_py.
  destruct (config (_args t)); unfold_py; exec fs;
    rewrite <- ?app_assoc, ?delete_insert_eq;
    try rewrite (delete_id fs (probe_path (_args t))) by done; by eexists.
Qed.

(** The first two steps of [__enter__]: when the probe returns, recovery
    runs on the files without the probe file. *)
Lemma enter_recovered_run (t : TwoPhaser) (w : world) (b : bool) :
  probe_outcome (config (_args t)) (has_file (files w) (probe_path (_args t))) = Ok b →
  ∃ os ws, (enter_probe;; _recover) (State t w) =
    (Ok tt,
     State (set__writable b t)
       {| files := recover_files (_args t) (delete (probe_path (_args t)) (files w));
          ops := ops w ++ OpOpen (probe_path (_args t)) (config (_args t)) :: os;
          warnings := warnings w ++ ws |}).
Proof.
  intros Ho. destruct (enter_probe_run t w) as [os1 H1]. rewrite Ho in H1.
  rewrite (bind_ok _ _ _ _ _ H1).
  match goal with |- context [_recover ?s] =>
    destruct (_recover_run (self s) (env s)) as (os2 & ws2 & H2) end.
  cbn [self env files ops warnings] in H2. rewrite H2. obj_simpl.
  exists (os1 ++ os2), ws2. by rewrite <- app_assoc.
Qed.

Lemma enter_probe_raises (t : TwoPhaser) (w : world) (e : exn) :
  probe_outcome (config (_args t)) (has_file (files w) (probe_path (_args t))) = Raise e →
  ∃ os, __enter__ (State t w) =
    (Raise e,
     State t {| files := delete (probe_path (_args t)) (files w);
                ops := ops w ++ os; warnings := warnings w |}).
Proof.
  intros Ho. destruct (enter_probe_run t w) as [os1 H1]. rewrite Ho in H1.
  unfold __enter__. rewrite (bind_raise _ _ _ _ _ H1). by eexists.
Qed.

(** The probe raises only in an exclusive mode with a probe file left
    over. *)
Lemma probe_outcome_raise (m : mode) (probe_exists : bool) (e : exn) :
  probe_outcome m probe_exists = Raise e →
  e = FileExistsError ∧ probe_exists = true ∧ (m = Mx ∨ m = Mx_plus).
Proof. destruct m, probe_exists; naive_solver. Qed.

Lemma probe_outcome_writable (m : mode) (probe_exists : bool) :
  probe_outcome m probe_exists = Ok true →
  mode_writable m = true ∧ (m = Mr_plus → probe_exists = true).
Proof. destruct m, probe_exists; naive_solver. Qed.

Lemma probe_outcome_read_only (m : mode) (probe_exists : bool) :
  probe_outcome m probe_exists = Ok false →
  m = Mr ∨ (m = Mr_plus ∧ probe_exists = false).
Proof. destruct m, probe_exists; naive_solver. Qed.

(* --------------------------------------------------------------------- *)
(*  12. Selecting and opening the backing file                           *)
(* --------------------------------------------------------------------- *)

Lemma enter_select_writable (t : TwoPhaser) (w : world) :
  _writable t = Some true →
  enter_select (State t w) = (Ok (_temporary_path (_args t)), State t w).
Proof. intros Hw. unfold enter_select. unfold_py. by rewrite Hw. Qed.

Lemma enter_select_read_only (t : TwoPhaser) (w : world) :
  _writable t = Some false →
  enter_select (State t w) =
    (Ok (backing_path (_args t) (files w)),
     State t {| files := files w; ops := ops w;
                warnings := warnings w ++ backup_warning (_args t) (files w) |}).
Proof.
  destruct w as [fs os ws]. intros Hw.
  unfold enter_select, backing_path, backup_warning, serves_backup.
  unfold_py. rewrite Hw.
  destruct (fs !! _backup_path (_args t)), (fs !! _primary_path (_args t));
    cbn; by rewrite ?app_nil_r.
Qed.

(** A writable session in a creating mode: the handle is a fresh, empty
    temporary file. *)
Lemma enter_open_creates (t : TwoPhaser) (w : world) :
  _writable t = Some true → mode_creates (config (_args t)) = true →
  files w !! _temporary_path (_args t) = None →
  let f := {| name := _temporary_path (_args t); fmode := config (_args t); pos := 0 |} in
  enter_open (_temporary_path (_args t)) (State t w) =
    (Ok f,
     State (set__writable_actual true (set__file (Some f) t))
       {| files := <[_temporary_path (_args t) := ""]> (files w);
          ops := ops w ++ [OpOpen (_temporary_path (_args t)) (config (_args t))];
          warnings := warnings w |}).
Proof.
  destruct w as [fs os ws]. cbn [files]. intros Hw Hm HT. unfold enter_open.
  unfold_py. destruct (config (_args t)); try done; unfold_py; by exec fs.
Qed.

(** Opening a missing file in a mode that does not create it. *)
Lemma enter_open_missing (t : TwoPhaser) (w : world) (p : string) :
  mode_creates (config (_args t)) = false → files w !! p = None →
  enter_open p (State t w) =
    (Raise FileNotFoundError,
     State t {| files := files w;
                ops := ops w ++ [OpOpen p (config (_args t))];
                warnings := warnings w |}).
Proof.
  destruct w as [fs os ws]. cbn [files]. intros Hm Hp. unfold enter_open.
  unfold_py. destruct (config (_args t)); try done; unfold_py; by exec fs.
Qed.

(** Opening an existing file for a session the probe judged read-only:
    mode 'r' gives the handle; mode 'r+' gives a handle that is writable,
    so the check closes it and raises. *)
Lemma enter_open_existing (t : TwoPhaser) (w : world) (p : string) :
  _writable t = Some false → mode_creates (config (_args t)) = false →
  is_Some (files w !! p) →
  let f := {| name := p; fmode := config (_args t); pos := 0 |} in
  enter_open p (State t w) =
    if mode_writable (config (_args t)) then
      (Raise WritableMismatch,
       State (set__file None (set__writable_actual true (set__file (Some f) t)))
         {| files := files w;
            ops := ops w ++ [OpOpen p (config (_args t)); OpClose p];
            warnings := warnings w |})
    else
      (Ok f,
       State (set__writable_actual false (set__file (Some f) t))
         {| files := files w;
            ops := ops w ++ [OpOpen p (config (_args t))];
            warnings := warnings w |}).
Proof.
  destruct w as [fs os ws]. cbn [files]. intros Hw Hm [c Hp]. unfold enter_open, _close.
  unfold_py. destruct (config (_args t)); try done; unfold_py; exec fs;
    by rewrite <- ?app_assoc.
Qed.

Lemma backing_path_missing (a : open_args) (fs : gmap string string) :
  fs !! backing_path a fs = None ↔
  fs !! _primary_path a = None ∧ fs !! _backup_path a = None.
Proof.
  unfold backing_path, serves_backup, has_file.
  destruct (fs !! _primary_path a) as [cp|] eqn:HP;
    destruct (fs !! _backup_path a) as [cb|] eqn:HB;
    cbn; rewrite ?HP, ?HB; split; (done || by intros []).
Qed.

Lemma __enter___unfold (s : state) :
  __enter__ s =
    ((enter_probe;; _recover);; path_to_use ← enter_select; enter_open path_to_use) s.
Proof. unfold __enter__, bind. by destruct (enter_probe s) as [[[]|?] ?]. Qed.

(** [__enter__] when the probe says writable. *)
Lemma enter_run_writable (t : TwoPhaser) (w : world) :
  probe_outcome (config (_args t)) (has_file (files w) (probe_path (_args t))) = Ok true →
  let fs2 := recover_files (_args t) (delete (probe_path (_args t)) (files w)) in
  let f := {| name := _temporary_path (_args t); fmode := config (_args t); pos := 0 |} in
  ∃ os ws, __enter__ (State t w) =
    if mode_creates (config (_args t)) then
      (Ok f,
       State (set__writable_actual true (set__file (Some f) (set__writable true t)))
         {| files := <[_temporary_path (_args t) := ""]> fs2;
            ops := ops w ++ os; warnings := warnings w ++ ws |})
    else
      (Raise FileNotFoundError,
       State (set__writable true t)
         {| files := fs2; ops := ops w ++ os; warnings := warnings w ++ ws |}).
Proof.
  intros Ho fs2 f. destruct (enter_recovered_run t w true Ho) as (os & ws & H1).
  rewrite __enter___unfold, (bind_ok _ _ _ _ _ H1).
  rewrite (bind_ok _ _ _ _ _ (enter_select_writable (set__writable true t) _ eq_refl)).
  pose proof (recover_files_temporary (_args t)
                (delete (probe_path (_args t)) (files w))) as HT.
  destruct (mode_creates (config (_args t))) eqn:Hm.
  - rewrite enter_open_creates by done. cbn [files ops warnings]. obj_simpl.
    eexists _, _. by rewrite <- app_assoc, <- app_comm_cons.
  - rewrite enter_open_missing by done. cbn [files ops warnings]. obj_simpl.
    eexists _, _. by rewrite <- app_assoc, <- app_comm_cons.
Qed.

(** [__enter__] when the probe says read-only. *)
Lemma enter_run_read_only (t : TwoPhaser) (w : world) :
  probe_outcome (config (_args t)) (has_file (files w) (probe_path (_args t))) = Ok false →
  let fs2 := recover_files (_args t) (delete (probe_path (_args t)) (files w)) in
  let p := backing_path (_args t) fs2 in
  let f := {| name := p; fmode := config (_args t); pos := 0 |} in
  ∃ os ws, __enter__ (State t w) =
    match fs2 !! p with
    | None =>
        (Raise FileNotFoundError,
         State (set__writable false t)
           {| files := fs2; ops := ops w ++ os ++ [OpOpen p (config (_args t))];
              warnings := warnings w ++ ws ++ backup_warning (_args t) fs2 |})
    | Some _ =>
        if mode_writable (config (_args t)) then
          (Raise WritableMismatch,
           State (set__file None
                    (set__writable_actual true (set__file (Some f) (set__writable false t))))
             {| files := fs2;
                ops := ops w ++ os ++ [OpOpen p (config (_args t)); OpClose p];
                warnings := warnings w ++ ws ++ backup_warning (_args t) fs2 |})
        else
          (Ok f,
           State (set__writable_actual false (set__file (Some f) (set__writable false t)))
             {| files := fs2; ops := ops w ++ os ++ [OpOpen p (config (_args t))];
                warnings := warnings w ++ ws ++ backup_warning (_args t) fs2 |})
    end.
Proof.
  intros Ho fs2 p f. destruct (enter_recovered_run t w false Ho) as (os & ws & H1).
  assert (mode_creates (config (_args t)) = false) as Hm.
  { by destruct (probe_outcome_read_only _ _ Ho) as [-> | [-> _]]. }
  rewrite __enter___unfold, (bind_ok _ _ _ _ _ H1).
  rewrite (bind_ok _ _ _ _ _ (enter_select_read_only (set__writable false t) _ eq_refl)).
  cbn [files ops warnings]. fold fs2 p.
  exists (OpOpen (probe_path (_args t)) (config (_args t)) :: os), ws.
  destruct (fs2 !! p) as [c|] eqn:Hp.
  - rewrite enter_open_existing by (by rewrite ?Hp). cbn [files ops warnings]. obj_simpl.
    destruct (mode_writable (config (_args t))); by rewrite <- !app_assoc.
  - rewrite enter_open_missing by done. cbn [files ops warnings]. obj_simpl.
    by rewrite <- !app_assoc.
Qed.

(* --------------------------------------------------------------------- *)
(*  13. The body of the with-block                                       *)
(* --------------------------------------------------------------------- *)

Lemma string_app_nil_r (s : string) : s +:+ "" = s.
Proof.
  induction s as [|c s IH]; [done|].
  change (String c (s +:+ "") = String c s). by f_equal.
Qed.

Lemma substring_whole (s : string) : String.substring 0 (String.length s) s = s.
Proof. induction s as [|c s IH]; [done | cbn; by f_equal]. Qed.

Lemma write_at_empty (s : string) : write_at 0 s "" = s.
Proof.
  assert (∀ n k, String.substring n k "" = "") as E by (by intros [] []).
  unfold write_at. rewrite !E. change (s +:+ "" = s). apply string_app_nil_r.
Qed.

Lemma same_but_refl (p : string) (s : state) : same_but p s s.
Proof. by repeat split. Qed.

Lemma same_but_trans (p : string) (s1 s2 s3 : state) :
  same_but p s1 s2 → same_but p s2 s3 → same_but p s1 s3.
Proof.
  intros (?&?&?&Hq1&?) (?&?&?&Hq2&?).
  repeat split; try congruence; [intros q ?; rewrite Hq2, Hq1; done | auto].
Qed.

Lemma file_write_frame (f : file_obj) (x : string) (s : state) r s' :
  file_write f x s = (r, s') →
  same_but (name f) s s' ∧ ∀ f', r = Ok f' → name f' = name f ∧ fmode f' = fmode f.
Proof.
  destruct s as [t [fs os ws]]. unfold file_write, same_but.
  destruct (file_writable f); unfold_py.
  - destruct (fs !! name f) eqn:Hf; intros [= <- <-]; cbn [self env files ops warnings];
      (split; [repeat split; try done; intros; by simplify_map_eq
              | by intros ? [= <-]]).
  - intros [= <- <-]. by repeat split.
Qed.

Lemma file_read_frame (f : file_obj) (s : state) r s' :
  file_read f s = (r, s') →
  s' = s ∧ ∀ c f', r = Ok (c, f') → name f' = name f ∧ fmode f' = fmode f.
Proof.
  destruct s as [t [fs os ws]]. unfold file_read.
  destruct (mode_readable (fmode f)); unfold_py.
  - destruct (fs !! name f); intros [= <- <-]; (split; [done | by intros ?? [= <- <-]]).
  - by intros [= <- <-].
Qed.

(** The body acts on the world through its handle only. *)
Lemma run_body_frame (b : list action) (f : file_obj) (s : state) r s' :
  run_body b f s = (r, s') → same_but (name f) s s'.
Proof.
  revert f s r s'. induction b as [|[x| |e] b IH]; intros f s r s'; cbn [run_body].
  - intros [= <- <-]. apply same_but_refl.
  - unfold bind at 1. destruct (file_write f x s) as [[f'|e] s1] eqn:Hw.
    + destruct (file_write_frame _ _ _ _ _ Hw) as [H1 Hn].
      destruct (Hn f' eq_refl) as [Hname _]. intros Hb. apply IH in Hb.
      rewrite Hname in Hb. by eapply same_but_trans.
    + intros [= <- <-]. by destruct (file_write_frame _ _ _ _ _ Hw).
  - unfold bind at 1. destruct (file_read f s) as [[[c f']|e] s1] eqn:Hr.
    + destruct (file_read_frame _ _ _ _ Hr) as [-> Hn].
      destruct (Hn c f' eq_refl) as [Hname _].
      unfold bind. destruct (run_body b f' s) as [[rs|e] s2] eqn:Hb;
        intros [= <- <-]; apply IH in Hb; by rewrite Hname in Hb.
    + intros [= <- <-]. destruct (file_read_frame _ _ _ _ Hr) as [-> _].
      apply same_but_refl.
  - intros [= <- <-]. apply same_but_refl.
Qed.

(** One write on a fresh handle leaves exactly what was written. *)
Lemma run_body_write (t : TwoPhaser) (w : world) (p : string) (m : mode) (x : string) :
  mode_creates m = true → files w !! p = Some "" →
  run_body [DoWrite x] {| name := p; fmode := m; pos := 0 |} (State t w) =
    (Ok [], State t {| files := <[p := x]> (files w); ops := ops w;
                       warnings := warnings w |}).
Proof.
  destruct w as [fs os ws]. cbn [files]. intros Hm Hp.
  cbn [run_body]. unfold file_write. unfold_py. cbn [is_append].
  destruct m; try done; cbn; rewrite Hp; cbn; by rewrite write_at_empty.
Qed.

(** One read on a fresh handle returns the whole file. *)
Lemma run_body_read (t : TwoPhaser) (w : world) (p : string) (m : mode) (c : string) :
  mode_readable m = true → files w !! p = Some c →
  run_body [DoRead] {| name := p; fmode := m; pos := 0 |} (State t w) =
    (Ok [c], State t w).
Proof.
  destruct w as [fs os ws]. cbn [files]. intros Hm Hp.
  cbn [run_body]. unfold file_read. unfold_py. rewrite Hm, Hp. cbn.
  rewrite Nat.sub_0_r. by rewrite substring_whole.
Qed.

(* --------------------------------------------------------------------- *)
(*  14. Whole sessions                                                   *)
(* --------------------------------------------------------------------- *)

Lemma __exit___run (t : TwoPhaser) (w : world) (f : file_obj) (b : bool)
    (e : option exn) :
  _file t = Some f → _writable t = Some b →
  ∃ os, __exit__ e (State t w) =
    (Ok false,
     State (set__file None t)
       {| files := close_files (_args t) b (match e with None => true | Some _ => false end) (files w);
          ops := ops w ++ OpClose (name f) :: os;
          warnings := warnings w |}).
Proof.
  intros Hf Hw. unfold __exit__.
  destruct (_close_run t w f b (match e with None => true | Some _ => false end) Hf Hw)
    as [os H].
  exists os. destruct e; by rewrite (bind_ok _ _ _ _ _ H).
Qed.

Lemma session_enter_raises (a : open_args) (b : list action) (w : world) e s1 :
  __enter__ (State (two_phase_open a) w) = (Raise e, s1) →
  session a b w = (Raise e, env s1).
Proof.
  intros H. unfold session, with_stmt. by rewrite (bind_raise _ _ _ _ _ H).
Qed.

Lemma session_entered (a : open_args) (b : list action) (w : world)
    f s1 rb s2 (bw : bool) :
  __enter__ (State (two_phase_open a) w) = (Ok f, s1) →
  _file (self s1) = Some f → _writable (self s1) = Some bw →
  run_body b f s1 = (rb, s2) →
  ∃ os,
    __exit__ (exception_of rb) s2 =
      (Ok false,
       State (set__file None (self s1))
         {| files := close_files (_args (self s1)) bw (is_ok rb) (files (env s2));
            ops := ops (env s2) ++ OpClose (name f) :: os;
            warnings := warnings (env s2) |}) ∧
    session a b w =
      (rb, {| files := close_files (_args (self s1)) bw (is_ok rb) (files (env s2));
              ops := ops (env s2) ++ OpClose (name f) :: os;
              warnings := warnings (env s2) |}).
Proof.
  intros He Hf Hw Hb.
  destruct (run_body_frame _ _ _ _ _ Hb) as (Hself & _).
  destruct s2 as [t2 w2]. cbn [self env] in *. subst t2.
  destruct (__exit___run (self s1) w2 f bw (exception_of rb) Hf Hw) as [os Hx].
  exists os. unfold session, with_stmt. rewrite (bind_ok _ _ _ _ _ He), Hb.
  destruct rb as [r|e]; cbn [exception_of is_ok] in *; by rewrite Hx.
Qed.

(** What a successful [__enter__] has done: either the probe said writable,
    the mode creates, and the handle is a fresh temporary file; or the
    probe said read-only, the mode is 'r', and the handle is on the
    existing backing file. *)
Lemma enter_ok_inv (t : TwoPhaser) (w : world) f s1 :
  __enter__ (State t w) = (Ok f, s1) →
  let a := _args t in
  let fs2 := recover_files a (delete (probe_path a) (files w)) in
  _args (self s1) = a ∧ _file (self s1) = Some f ∧
  _writable (self s1) = Some (file_writable f) ∧
  _writable_actual (self s1) = Some (file_writable f) ∧
  fmode f = config a ∧ pos f = 0 ∧
  (∃ os, ops (env s1) = ops w ++ os) ∧
  ((file_writable f = true ∧ mode_creates (config a) = true ∧
    probe_outcome (config a) (has_file (files w) (probe_path a)) = Ok true ∧
    name f = _temporary_path a ∧
    files (env s1) = <[_temporary_path a := ""]> fs2)
   ∨
   (file_writable f = false ∧ config a = Mr ∧
    name f = backing_path a fs2 ∧ is_Some (fs2 !! backing_path a fs2) ∧
    files (env s1) = fs2)).
Proof.
  intros He a fs2.
  destruct (probe_outcome (config a) (has_file (files w) (probe_path a)))
    as [[|]|e] eqn:Ho.
  - destruct (enter_run_writable t w Ho) as (os & ws & H). rewrite He in H.
    fold a in H. destruct (mode_creates (config a)) eqn:Hm; [|done].
    injection H as -> ->. cbn [self env files ops]. obj_simpl.
    assert (mode_writable (config a) = true) as Hmw by (by destruct (config a)).
    unfold file_writable; cbn [fmode]; rewrite Hmw.
    do 6 (split; [done|]). split; [by eexists|]. left. by repeat split.
  - destruct (enter_run_read_only t w Ho) as (os & ws & H). rewrite He in H.
    fold a fs2 in H. destruct (fs2 !! backing_path a fs2) as [c|] eqn:Hp; [|done].
    destruct (probe_outcome_read_only _ _ Ho) as [Hm | [Hm _]];
      rewrite Hm in H; cbn [mode_writable] in H; [|done].
    injection H as -> ->. cbn [self env files ops]. obj_simpl.
    unfold file_writable; cbn [fmode mode_writable]. rewrite Hm.
    do 6 (split; [done|]). split; [by eexists|]. right. by repeat split.
  - destruct (enter_probe_raises t w e Ho) as (os & H). by rewrite He in H.
Qed.

(** The files once the probe and recovery have run, seen from the files
    the session started with. *)
Section after_recovery.
Context (a : open_args) (fs : gmap string string).

Lemma recovered_primary_delete_probe :
  recovered_primary a (delete (probe_path a) fs) = recovered_primary a fs.
Proof.
  unfold recovered_primary. name_paths a. by rewrite !lookup_delete_ne by done.
Qed.

Lemma after_recovery_temporary :
  recover_files a (delete (probe_path a) fs) !! _temporary_path a = None.
Proof. apply recover_files_temporary. Qed.

Lemma after_recovery_probe :
  recover_files a (delete (probe_path a) fs) !! probe_path a = None.
Proof. by rewrite recover_files_probe, lookup_delete_eq. Qed.

Lemma after_recovery_backup :
  recover_files a (delete (probe_path a) fs) !! _backup_path a = fs !! _backup_path a.
Proof.
  name_paths a. by rewrite recover_files_backup, lookup_delete_ne.
Qed.

Lemma after_recovery_primary :
  recover_files a (delete (probe_path a) fs) !! _primary_path a
    = recovered_primary a fs.
Proof.
  by rewrite recover_files_primary, recovered_primary_delete_probe.
Qed.

Lemma after_recovery_other (q : string) :
  q ≠ _temporary_path a → q ≠ _primary_path a → q ≠ probe_path a →
  recover_files a (delete (probe_path a) fs) !! q = fs !! q.
Proof.
  intros ???. by rewrite recover_files_other, lookup_delete_ne.
Qed.
End after_recovery.

Lemma recovered_primary_existing (a : open_args) (fs : gmap string string) c :
  fs !! _primary_path a = Some c → recovered_primary a fs = Some c.
Proof.
  unfold recovered_primary. intros ->. by destruct (fs !! _temporary_path a).
Qed.

Lemma recovered_primary_no_roll_forward (a : open_args) (fs : gmap string string) :
  ¬ (is_Some (fs !! _temporary_path a) ∧ fs !! _primary_path a = None ∧
     is_Some (fs !! _backup_path a)) →
  recovered_primary a fs = fs !! _primary_path a.
Proof.
  unfold recovered_primary.
  destruct (fs !! _temporary_path a), (fs !! _primary_path a),
    (fs !! _backup_path a); try done.
  intros []. by repeat split.
Qed.

Lemma __exit___rollback (t : TwoPhaser) (w : world) (f : file_obj) (e : exn) :
  _file t = Some f → _writable t = Some true →
  __exit__ (Some e) (State t w) =
    (Ok false,
     State (set__file None t)
       {| files := delete (_temporary_path (_args t)) (files w);
          ops := ops w ++ [OpClose (name f); OpUnlink (_temporary_path (_args t))];
          warnings := warnings w |}).
Proof.
  destruct w as [fs os ws]. intros Hf Hw. unfold __exit__, _close.
  unfold_py. exec fs; rewrite <- ?app_assoc; [done|].
  by rewrite (delete_id fs (_temporary_path (_args t))).
Qed.

Lemma __exit___read_only (t : TwoPhaser) (w : world) (f : file_obj) (e : option exn) :
  _file t = Some f → _writable t = Some false →
  __exit__ e (State t w) =
    (Ok false,
     State (set__file None t)
       {| files := files w; ops := ops w ++ [OpClose (name f)];
          warnings := warnings w |}).
Proof.
  destruct w as [fs os ws]. intros Hf Hw. unfold __exit__, _close.
  unfold_py. by exec fs.
Qed.

(** A read of an existing primary returns its content. *)
Lemma read_session_primary (a : open_args) (w : world) (c : string) :
  config a = Mr → files w !! _primary_path a = Some c →
  ∃ w', session a [DoRead] w = (Ok [c], w') ∧
        files w' = recover_files a (delete (probe_path a) (files w)).
Proof.
  intros Hm HP. set (t := two_phase_open a).
  assert (probe_outcome (config (_args t))
            (has_file (files w) (probe_path (_args t))) = Ok false) as Ho.
  { cbn. by rewrite Hm. }
  destruct (enter_run_read_only t w Ho) as (os & ws & He).
  cbn [t two_phase_open __init__ _args] in He. fold t in He.
  pose proof (after_recovery_primary a (files w)) as HP2.
  rewrite (recovered_primary_existing _ _ _ HP) in HP2.
  assert (backing_path a (recover_files a (delete (probe_path a) (files w)))
          = _primary_path a) as Hbp.
  { unfold backing_path, serves_backup, has_file. rewrite HP2.
    by rewrite andb_false_r. }
  rewrite Hbp, HP2, Hm in He. cbn [mode_writable] in He.
  match type of He with _ = (_, ?s) => set (s1 := s) in * end.
  destruct (session_entered a [DoRead] w _ s1 (Ok [c]) s1 false He eq_refl eq_refl)
    as (os' & _ & Hs).
  { apply run_body_read; [done|]. by cbn. }
  eexists. split; [exact Hs | done].
Qed.

(* --------------------------------------------------------------------- *)
(*  15. Rollback                                                         *)
(* --------------------------------------------------------------------- *)

(** C3, as stated, fails: a writable session that starts from T and B
    without P and whose body raises ends with the exception propagating,
    but P, which did not exist before the session, now holds what T held
    (recovery rolled it forward before the handle was opened), and a
    subsequent read returns that content. *)
Lemma rollback_not_pre_session_primary :
  (session (OpenArgs "f" Mw) failing_write interrupted_world).1
    = Raise (CallerError 0) ∧
  files interrupted_world !! _primary_path (OpenArgs "f" Mw) = None ∧
  files (session (OpenArgs "f" Mw) failing_write interrupted_world).2
    !! _primary_path (OpenArgs "f" Mw) ≠
  files interrupted_world !! _primary_path (OpenArgs "f" Mw) ∧
  (session (OpenArgs "f" Mr) [DoRead]
     (session (OpenArgs "f" Mw) failing_write interrupted_world).2).1
    = Ok ["stale"].
Proof. vm_compute. by repeat split. Qed.

(** C3, amended.  When the body of a writable session raises, the close
    path closes the handle and unlinks T, the same exception reaches the
    caller, T is gone, B is what it was before the session, and P is what
    recovery left at the start of the session: its pre-session state,
    unless the session started with T and B and no P, where it holds what
    T held.  A subsequent read returns that content of P. *)
Theorem rollback_session (a : open_args) (b : list action) (w : world)
    (f : file_obj) (s1 s2 : state) (e : exn) :
  __enter__ (State (two_phase_open a) w) = (Ok f, s1) →
  _writable (self s1) = Some true →
  run_body b f s1 = (Raise e, s2) →
  ∃ w', session a b w = (Raise e, w') ∧
    ops w' = ops (env s2) ++ [OpClose (_temporary_path a); OpUnlink (_temporary_path a)] ∧
    files w' !! _temporary_path a = None ∧
    files w' !! _backup_path a = files w !! _backup_path a ∧
    files w' !! _primary_path a = recovered_primary a (files w) ∧
    (¬ (is_Some (files w !! _temporary_path a) ∧ files w !! _primary_path a = None ∧
        is_Some (files w !! _backup_path a)) →
     files w' !! _primary_path a = files w !! _primary_path a) ∧
    ∀ c, files w' !! _primary_path a = Some c →
         (session {| primary := primary a; config := Mr |} [DoRead] w').1 = Ok [c].
Proof.
  intros He Hw Hb.
  destruct (enter_ok_inv _ _ _ _ He) as (Ha & Hf & Hw' & _ & _ & _ & _ & Hcase).
  cbn [two_phase_open __init__ _args] in *.
  rewrite Hw in Hw'. injection Hw' as Hfw.
  destruct Hcase as [(_ & _ & _ & Hname & Hfs) | (Hro & _)]; [|congruence].
  destruct (run_body_frame _ _ _ _ _ Hb) as (Hself & Hops & Hws & Hq & _).
  rewrite Hname in Hq. name_paths a.
  assert (__exit__ (Some e) s2 =
            (Ok false,
             State (set__file None (self s2))
               {| files := delete (_temporary_path a) (files (env s2));
                  ops := ops (env s2) ++ [OpClose (_temporary_path a);
                                          OpUnlink (_temporary_path a)];
                  warnings := warnings (env s2) |})) as Hx.
  { destruct s2 as [t2 w2]. cbn [self env] in *. subst t2.
    pose proof (__exit___rollback (self s1) w2 f e Hf Hw) as Hx.
    by rewrite Ha, Hname in Hx. }
  eexists. split.
  { unfold session, with_stmt. by rewrite (bind_ok _ _ _ _ _ He), Hb, Hx. }
  cbn [files ops env].
  assert (delete (_temporary_path a) (files (env s2)) !! _primary_path a
          = recovered_primary a (files w)) as HP.
  { rewrite lookup_delete_ne, Hq, Hfs, lookup_insert_ne by done.
    apply after_recovery_primary. }
  split; [done|]. split; [apply lookup_delete_eq|]. split.
  { rewrite lookup_delete_ne, Hq, Hfs, lookup_insert_ne by done.
    apply after_recovery_backup. }
  split; [done|]. split.
  { intros Hn. by rewrite HP, recovered_primary_no_roll_forward. }
  intros c Hc.
  destruct (read_session_primary {| primary := primary a; config := Mr |}
              {| files := delete (_temporary_path a) (files (env s2));
                 ops := ops (env s2) ++ [OpClose (_temporary_path a);
                                         OpUnlink (_temporary_path a)];
                 warnings := warnings (env s2) |} c eq_refl Hc) as (w'' & -> & _).
  done.
Qed.

Lemma rollback_session_witness :
  ∃ w', session (OpenArgs "f" Mw) failing_write committed_world
          = (Raise (CallerError 0), w') ∧
        files w' !! "f" = Some "old" ∧ files w' !! "f.tmp" = None.
Proof.
  destruct (rollback_session (OpenArgs "f" Mw) failing_write committed_world
              _ _ _ (CallerError 0) eq_refl eq_refl eq_refl)
    as (w' & Hs & _ & HT & _ & HP & _).
  exists w'. split; [exact Hs|]. split; [exact HP | exact HT].
Defined.

(* --------------------------------------------------------------------- *)
(*  16. The temporary file does not outlive recovery or a close          *)
(* --------------------------------------------------------------------- *)

Lemma backing_path_ne_temporary (a : open_args) (fs : gmap string string) :
  _temporary_path a ≠ backing_path a fs.
Proof.
  unfold backing_path. name_paths a. by destruct (serves_backup a fs).
Qed.

Lemma close_files_temporary (a : open_args) (b normal : bool) (fs : gmap string string) :
  (b = false → fs !! _temporary_path a = None) →
  close_files a b normal fs !! _temporary_path a = None.
Proof.
  unfold close_files. destruct b, normal; intros H;
    [apply commit_files_temporary | apply lookup_delete_eq | by apply H..].
Qed.

Lemma enter_probe_ok_outcome (t : TwoPhaser) (w : world) s1 :
  enter_probe (State t w) = (Ok tt, s1) →
  ∃ b, probe_outcome (config (_args t)) (has_file (files w) (probe_path (_args t))) = Ok b.
Proof.
  intros H. destruct (enter_probe_run t w) as [os H']. rewrite H in H'.
  destruct (probe_outcome _ _) as [b|e]; [by exists b | done].
Qed.

(** Every session in which the probe returned ends without T. *)
Lemma session_no_temporary (a : open_args) (b : list action) (w : world) (bp : bool) :
  probe_outcome (config a) (has_file (files w) (probe_path a)) = Ok bp →
  files (session a b w).2 !! _temporary_path a = None.
Proof.
  intros Ho. set (t := two_phase_open a).
  destruct (__enter__ (State t w)) as [[f|e] s1] eqn:He.
  - destruct (enter_ok_inv _ _ _ _ He) as (Ha & Hf & Hw & _ & _ & _ & _ & Hcase).
    cbn [t two_phase_open __init__ _args] in *.
    destruct (run_body b f s1) as [rb s2] eqn:Hb.
    destruct (session_entered a b w f s1 rb s2 _ He Hf Hw Hb) as (os & _ & ->).
    cbn [snd files]. rewrite Ha. apply close_files_temporary. intros Hro.
    destruct Hcase as [(Hwr & _) | (_ & _ & Hname & _ & Hfs)]; [congruence|].
    destruct (run_body_frame _ _ _ _ _ Hb) as (_ & _ & _ & Hq & _).
    rewrite Hq, Hfs; [apply after_recovery_temporary|].
    rewrite Hname. apply backing_path_ne_temporary.
  - rewrite (session_enter_raises a b w e s1 He). cbn [snd].
    destruct bp.
    + destruct (enter_run_writable t w Ho) as (os & ws & H). rewrite He in H.
      destruct (mode_creates (config (_args t))); [done|].
      injection H as -> ->. apply after_recovery_temporary.
    + destruct (enter_run_read_only t w Ho) as (os & ws & H). rewrite He in H.
      cbn [t two_phase_open __init__ _args] in H.
      destruct (_ !! backing_path a _); [destruct (mode_writable (config a))|];
        try done; injection H as -> ->; apply after_recovery_temporary.
Qed.

Lemma enter_probe_raise_outcome (t : TwoPhaser) (w : world) e s1 :
  enter_probe (State t w) = (Raise e, s1) →
  probe_outcome (config (_args t)) (has_file (files w) (probe_path (_args t))) = Raise e.
Proof.
  intros H. destruct (enter_probe_run t w) as [os H']. rewrite H in H'.
  destruct (probe_outcome _ _) as [b|e']; [done|].
  cbn [probe_result] in H'. by injection H' as ->.
Qed.

(** C4, as stated, fails: a session can fail during its setup with T
    still there.  Under 'x' with a probe file left over, the probe raises
    [FileExistsError], [__enter__] ends before recovery, and a stale T is
    what it was. *)
Lemma temporary_survives_probe_failure :
  (session (OpenArgs "f" Mx) [DoWrite "new"]
     {| files := {[ "f.prb" := "left over"; "f.tmp" := "stale" ]};
        ops := []; warnings := [] |}).1 = Raise FileExistsError ∧
  files (session (OpenArgs "f" Mx) [DoWrite "new"]
           {| files := {[ "f.prb" := "left over"; "f.tmp" := "stale" ]};
              ops := []; warnings := [] |}).2 !! _temporary_path (OpenArgs "f" Mx)
    ≠ None.
Proof. vm_compute. by split. Qed.

(** C4, amended.  T does not exist once [_recover] has returned, whatever
    the state it ran in; it does not exist once [_close] has returned for
    a writable session, normal or not; and it does not exist at the end of
    any session whose probe returned: after a commit, after a rollback,
    and after a failure of [__enter__] at the open of the backing file or
    at the check of its writability.  When the probe itself raises, the
    session ends with that exception before recovery, and T is what it was
    at the start. *)
Theorem temporary_never_survives :
  (∀ (t : TwoPhaser) (w : world),
     files (env (_recover (State t w)).2) !! _temporary_path (_args t) = None) ∧
  (∀ (t : TwoPhaser) (w : world) (f : file_obj) (normal : bool),
     _file t = Some f → _writable t = Some true →
     files (env (_close normal (State t w)).2) !! _temporary_path (_args t) = None) ∧
  (∀ (a : open_args) (b : list action) (w : world) (s1 : state),
     enter_probe (State (two_phase_open a) w) = (Ok tt, s1) →
     files (session a b w).2 !! _temporary_path a = None) ∧
  (∀ (a : open_args) (b : list action) (w : world) (e : exn) (s1 : state),
     enter_probe (State (two_phase_open a) w) = (Raise e, s1) →
     (session a b w).1 = Raise e ∧
     files (session a b w).2 !! _temporary_path a = files w !! _temporary_path a).
Proof.
  split; [|split; [|split]].
  - intros t w. destruct (_recover_run t w) as (os & ws & ->).
    apply recover_files_temporary.
  - intros t w f normal Hf Hw.
    destruct (_close_run t w f true normal Hf Hw) as (os & ->).
    by apply close_files_temporary.
  - intros a b w s1 Hp.
    destruct (enter_probe_ok_outcome _ _ _ Hp) as [bp Ho].
    by apply (session_no_temporary a b w bp).
  - intros a b w e s1 Hp. apply enter_probe_raise_outcome in Hp.
    destruct (enter_probe_raises _ _ _ Hp) as (os & He).
    rewrite (session_enter_raises a b w _ _ He). cbn [fst snd env files].
    split; [done|]. name_paths a.
    cbn [two_phase_open __init__ _args]. by rewrite lookup_delete_ne.
Qed.

(** A read session over a stale T next to P. *)
Lemma temporary_never_survives_witness :
  files (session (OpenArgs "f" Mr) [DoRead]
           {| files := {[ "f" := "old"; "f.tmp" := "stale" ]};
              ops := []; warnings := [] |}).2 !! "f.tmp" = None.
Proof.
  exact (proj1 (proj2 (proj2 temporary_never_survives)) (OpenArgs "f" Mr) [DoRead]
           {| files := {[ "f" := "old"; "f.tmp" := "stale" ]};
              ops := []; warnings := [] |} _ eq_refl).
Defined.

(* --------------------------------------------------------------------- *)
(*  17. The probe against the real handle                                *)
(* --------------------------------------------------------------------- *)

(** C5.  The code at the failing input: under 'r+' with an existing
    primary the probe cannot open its probe file and says read-only, the
    handle then opened on the primary is writable, and the check of the
    one against the other raises [WritableMismatch]: the probe did not
    determine the write capability of the handle. *)
Lemma probe_wrong_for_read_update :
  (__enter__ (State (two_phase_open (OpenArgs "f" Mr_plus)) committed_world)).1
    = Raise WritableMismatch ∧
  _writable (self (__enter__ (State (two_phase_open (OpenArgs "f" Mr_plus))
                                committed_world)).2) = Some false ∧
  _writable_actual (self (__enter__ (State (two_phase_open (OpenArgs "f" Mr_plus))
                                       committed_world)).2) = Some true.
Proof. vm_compute. by repeat split. Qed.

Lemma after_recovery_no_data (a : open_args) (fs : gmap string string) :
  let fs2 := recover_files a (delete (probe_path a) fs) in
  fs2 !! backing_path a fs2 = None ↔
  fs !! _primary_path a = None ∧ fs !! _backup_path a = None.
Proof.
  intros fs2. rewrite backing_path_missing. unfold fs2.
  rewrite after_recovery_primary, after_recovery_backup. unfold recovered_primary.
  destruct (fs !! _temporary_path a), (fs !! _primary_path a),
    (fs !! _backup_path a); split; by intros [].
Qed.

(** Where the check of the handle against the probe raises: never in a
    mode other than 'r+'; under 'r+', exactly when no probe file is left
    over and P or B exists.  A handle that [__enter__] returns has the
    [writable()] the probe found. *)
Lemma probe_agrees_unless_read_update (a : open_args) (w : world) :
  ((__enter__ (State (two_phase_open a) w)).1 = Raise WritableMismatch ↔
   config a = Mr_plus ∧ files w !! probe_path a = None ∧
   (is_Some (files w !! _primary_path a) ∨ is_Some (files w !! _backup_path a))) ∧
  (config a ≠ Mr_plus →
   (__enter__ (State (two_phase_open a) w)).1 ≠ Raise WritableMismatch) ∧
  (∀ f, (__enter__ (State (two_phase_open a) w)).1 = Ok f →
        _writable (self (__enter__ (State (two_phase_open a) w)).2)
          = Some (file_writable f) ∧
        _writable_actual (self (__enter__ (State (two_phase_open a) w)).2)
          = Some (file_writable f)).
Proof.
  set (t := two_phase_open a).
  assert ((__enter__ (State t w)).1 = Raise WritableMismatch ↔
          config a = Mr_plus ∧ files w !! probe_path a = None ∧
          (is_Some (files w !! _primary_path a) ∨
           is_Some (files w !! _backup_path a))) as Hiff.
  { pose proof (after_recovery_no_data a (files w)) as Hnd. cbv zeta in Hnd.
    destruct (probe_outcome (config (_args t))
                (has_file (files w) (probe_path (_args t)))) as [[|]|e] eqn:Ho.
    - destruct (enter_run_writable t w Ho) as (os & ws & ->).
      cbn [t two_phase_open __init__ _args] in *. split.
      + by destruct (mode_creates (config a)).
      + intros (Hm & HR & _). unfold has_file in Ho. by rewrite Hm, HR in Ho.
    - destruct (enter_run_read_only t w Ho) as (os & ws & ->).
      cbn [t two_phase_open __init__ _args] in *.
      destruct (probe_outcome_read_only _ _ Ho) as [Hm | [Hm HR]].
      + rewrite Hm. cbn [mode_writable]. split; [|by intros []].
        by destruct (_ !! backing_path a _).
      + rewrite Hm. cbn [mode_writable].
        assert (files w !! probe_path a = None) as HR'.
        { unfold has_file in HR. by destruct (files w !! probe_path a). }
        destruct (_ !! backing_path a _) as [c|] eqn:Hp; cbn [fst].
        * split; [intros _ | done]. do 2 (split; [done|]).
          destruct (files w !! _primary_path a) eqn:HP; [by left|].
          destruct (files w !! _backup_path a) eqn:HB; [by right|].
          discriminate (proj2 Hnd (conj eq_refl eq_refl)).
        * split; [done|]. intros (_ & _ & Hsome).
          destruct (proj1 Hnd eq_refl) as [HP HB]. rewrite HP, HB in Hsome.
          by destruct Hsome as [[]|[]].
    - destruct (enter_probe_raises t w e Ho) as (os & ->). cbn [fst].
      destruct (probe_outcome_raise _ _ _ Ho) as (-> & _ & Hm).
      cbn [t two_phase_open __init__ _args] in Hm.
      split; [done|]. intros [Hm' _]. rewrite Hm' in Hm. by destruct Hm. }
  split; [exact Hiff|]. split.
  - intros Hm Hr. apply Hiff in Hr as [? _]. done.
  - intros f Hf. destruct (__enter__ (State t w)) as [r s1] eqn:He.
    cbn [fst snd] in *. subst r.
    by destruct (enter_ok_inv _ _ _ _ He) as (_ & _ & ? & ? & _).
Qed.

(** C7.  Whenever the value of the probe and the [writable()] of the
    handle opened on the backing file differ, [__enter__] raises
    [WritableMismatch], the last two calls it made are the open of the
    backing file and the close of that handle, the object holds no file
    any more, and the caller's with-statement ends with that exception
    without running its body. *)
Theorem mismatch_fails_session (a : open_args) (b : list action) (w : world)
    (probed actual : bool) :
  _writable (self (__enter__ (State (two_phase_open a) w)).2) = Some probed →
  _writable_actual (self (__enter__ (State (two_phase_open a) w)).2) = Some actual →
  probed ≠ actual →
  (__enter__ (State (two_phase_open a) w)).1 = Raise WritableMismatch ∧
  _file (self (__enter__ (State (two_phase_open a) w)).2) = None ∧
  (∃ os p, ops (env (__enter__ (State (two_phase_open a) w)).2)
             = ops w ++ os ++ [OpOpen p (config a); OpClose p]) ∧
  session a b w
    = (Raise WritableMismatch, env (__enter__ (State (two_phase_open a) w)).2).
Proof.
  set (t := two_phase_open a).
  destruct (probe_outcome (config (_args t))
              (has_file (files w) (probe_path (_args t)))) as [[|]|e] eqn:Ho.
  - destruct (enter_run_writable t w Ho) as (os & ws & ->).
    destruct (mode_creates (config (_args t))); cbn [snd self]; obj_simpl;
      [congruence | done].
  - destruct (enter_run_read_only t w Ho) as (os & ws & He).
    cbn [t two_phase_open __init__ _args] in He. rewrite He.
    destruct (_ !! backing_path a _); [destruct (mode_writable (config a))|];
      cbn [fst snd self env ops]; obj_simpl; try done; try congruence.
    intros _ _ _. do 2 (split; [done|]). split; [by eexists _, _|].
    by rewrite (session_enter_raises a b w _ _ He).
  - destruct (enter_probe_raises t w e Ho) as (os & ->). by cbn.
Qed.

Lemma mismatch_fails_session_witness :
  session (OpenArgs "f" Mr_plus) [DoRead] committed_world
    = (Raise WritableMismatch,
       env (__enter__ (State (two_phase_open (OpenArgs "f" Mr_plus))
                         committed_world)).2).
Proof.
  refine (proj2 (proj2 (proj2
    (mismatch_fails_session (OpenArgs "f" Mr_plus) [DoRead] committed_world
       false true eq_refl eq_refl _)))).
  discriminate.
Defined.

(* --------------------------------------------------------------------- *)
(*  18. Read-only sessions                                               *)
(* --------------------------------------------------------------------- *)

(** C6, as stated, fails: with neither P nor B, a read can raise
    [FileNotFoundError] and yet change the files.  From a stale T alone the
    probe says read-only, recovery unlinks T, the open of P raises
    [FileNotFoundError], and the files are not the ones the session
    started with. *)
Lemma read_not_found_changes_files :
  files {| files := {[ "f.tmp" := "stale" ]}; ops := []; warnings := [] |}
    !! _primary_path (OpenArgs "f" Mr) = None ∧
  files {| files := {[ "f.tmp" := "stale" ]}; ops := []; warnings := [] |}
    !! _backup_path (OpenArgs "f" Mr) = None ∧
  (session (OpenArgs "f" Mr) [DoRead]
     {| files := {[ "f.tmp" := "stale" ]}; ops := []; warnings := [] |}).1
    = Raise FileNotFoundError ∧
  files (session (OpenArgs "f" Mr) [DoRead]
           {| files := {[ "f.tmp" := "stale" ]}; ops := []; warnings := [] |}).2
    ≠ files {| files := {[ "f.tmp" := "stale" ]}; ops := []; warnings := [] |}.
Proof.
  do 3 (split; [vm_compute; reflexivity|]).
  intros H. apply (f_equal (λ m : gmap string string, m !! "f.tmp")) in H.
  vm_compute in H. discriminate H.
Qed.

(** C6, amended.  In a session the probe judged read-only, once recovery
    has run the path selected is B exactly when B exists and P does not,
    with the warning logged in that case and no other, and P otherwise,
    and the one open [__enter__] makes after recovery is on that path.
    When the file exists and the mode does not write, [__enter__] returns
    a handle on it, at position 0, and the file is there with its content;
    when the mode writes ('r+'), the handle is closed again and
    [WritableMismatch] raised.  The selected file is missing exactly when
    neither P nor B exists; the caller then gets [FileNotFoundError] and
    the files are the ones recovery left: the ones the session started
    with when there was no T and no probe file, and those less T and the
    probe file otherwise. *)
Theorem read_only_backing_file (a : open_args) (b : list action) (w : world)
    (s1 s2 : state) :
  enter_probe (State (two_phase_open a) w) = (Ok tt, s1) →
  _writable (self s1) = Some false →
  _recover s1 = (Ok tt, s2) →
  let fs2 := files (env s2) in
  let use_backup :=
    has_file fs2 (_backup_path a) && negb (has_file fs2 (_primary_path a)) in
  let p := if use_backup then _backup_path a else _primary_path a in
  let f := {| name := p; fmode := config a; pos := 0 |} in
  let s3 := State (self s2)
              {| files := fs2; ops := ops (env s2);
                 warnings := warnings (env s2) ++
                   (if use_backup then [WarnReadingFromBackup (_backup_path a)] else []) |} in
  enter_select s2 = (Ok p, s3) ∧
  __enter__ (State (two_phase_open a) w) = enter_open p s3 ∧
  (∀ f', (__enter__ (State (two_phase_open a) w)).1 = Ok f' → name f' = p) ∧
  (∀ c, fs2 !! p = Some c → mode_writable (config a) = false →
     ∃ s4, __enter__ (State (two_phase_open a) w) = (Ok f, s4) ∧
           _file (self s4) = Some f ∧
           files (env s4) = fs2 ∧ files (env s4) !! name f = Some c ∧
           ops (env s4) = ops (env s2) ++ [OpOpen p (config a)] ∧
           warnings (env s4) = warnings (env s3)) ∧
  (∀ c, fs2 !! p = Some c → mode_writable (config a) = true →
     ∃ s4, __enter__ (State (two_phase_open a) w) = (Raise WritableMismatch, s4) ∧
           _file (self s4) = None ∧ files (env s4) = fs2 ∧
           ops (env s4) = ops (env s2) ++ [OpOpen p (config a); OpClose p]) ∧
  (fs2 !! p = None ↔ fs2 !! _primary_path a = None ∧ fs2 !! _backup_path a = None) ∧
  (fs2 !! _primary_path a = None → fs2 !! _backup_path a = None →
   (session a b w).1 = Raise FileNotFoundError ∧
   files (session a b w).2 = fs2 ∧
   ops (session a b w).2 = ops (env s2) ++ [OpOpen p (config a)] ∧
   (∀ q, q ≠ _temporary_path a → q ≠ probe_path a →
         files (session a b w).2 !! q = files w !! q) ∧
   files (session a b w).2 !! _temporary_path a = None ∧
   files (session a b w).2 !! probe_path a = None ∧
   (files w !! _temporary_path a = None → files w !! probe_path a = None →
    files (session a b w).2 = files w)).
Proof.
  intros Hp Hw Hr. set (t := two_phase_open a) in *.
  destruct (enter_probe_run t w) as [os1 Hp']. rewrite Hp in Hp'.
  destruct (probe_outcome (config (_args t)) _) as [bp|e] eqn:Ho; [|done].
  cbn [probe_result probe_self] in Hp'. injection Hp' as ->.
  cbn [self] in Hw. obj_simpl. injection Hw as ->.
  match type of Hr with _recover (State ?t1 ?w1) = _ =>
    destruct (_recover_run t1 w1) as (os2 & ws2 & Hr') end.
  rewrite Hr in Hr'. injection Hr' as ->.
  cbn [self env files ops warnings t two_phase_open __init__ _args] in *. obj_simpl.
  fold t.
  assert (mode_creates (config a) = false) as Hm.
  { by destruct (probe_outcome_read_only _ _ Ho) as [-> | [-> _]]. }
  set (fs2 := recover_files a (delete (probe_path a) (files w))).
  match goal with |- enter_select ?s = (_, ?s') ∧ _ =>
    set (s2 := s); set (s3 := s') end.
  assert (enter_select s2 = (Ok (backing_path a fs2), s3)) as Hsel.
  { unfold s2. by rewrite (enter_select_read_only (set__writable false t) _ eq_refl). }
  assert (__enter__ (State t w) = enter_open (backing_path a fs2) s3) as He.
  { assert ((enter_probe;; _recover) (State t w) = (Ok tt, s2)) as Hpr.
    { rewrite (bind_ok _ _ _ _ _ Hp). exact Hr. }
    rewrite __enter___unfold, (bind_ok _ _ _ _ _ Hpr).
    by rewrite (bind_ok _ _ _ _ _ Hsel). }
  assert (∀ c, fs2 !! backing_path a fs2 = Some c →
            enter_open (backing_path a fs2) s3 =
              if mode_writable (config a) then
                (Raise WritableMismatch,
                 State (set__file None (set__writable_actual true
                          (set__file (Some {| name := backing_path a fs2;
                                              fmode := config a; pos := 0 |})
                             (set__writable false t))))
                   {| files := fs2;
                      ops := ops (env s3) ++ [OpOpen (backing_path a fs2) (config a);
                                              OpClose (backing_path a fs2)];
                      warnings := warnings (env s3) |})
              else
                (Ok {| name := backing_path a fs2; fmode := config a; pos := 0 |},
                 State (set__writable_actual false
                          (set__file (Some {| name := backing_path a fs2;
                                              fmode := config a; pos := 0 |})
                             (set__writable false t)))
                   {| files := fs2;
                      ops := ops (env s3) ++ [OpOpen (backing_path a fs2) (config a)];
                      warnings := warnings (env s3) |})) as Hexist.
  { intros c Hc.
    exact (enter_open_existing (set__writable false t) (env s3) (backing_path a fs2)
             eq_refl Hm (mk_is_Some _ _ Hc)). }
  split; [exact Hsel|]. split; [exact He|]. split.
  { intros f Hf. destruct (__enter__ (State t w)) as [r s'] eqn:He'.
    cbn [fst] in Hf. subst r.
    destruct (enter_ok_inv _ _ _ _ He') as (_ & _ & _ & _ & _ & _ & _ & Hcase).
    destruct Hcase as [(_ & Hc & _) | (_ & _ & Hname & _)].
    - cbn [t two_phase_open __init__ _args] in Hc. congruence.
    - exact Hname. }
  split.
  { intros c Hc Hmw. change (fs2 !! backing_path a fs2 = Some c) in Hc.
    rewrite He, (Hexist c Hc), Hmw. eexists. split; [reflexivity|].
    cbn [self env files ops warnings name]. obj_simpl. by repeat split. }
  split.
  { intros c Hc Hmw. change (fs2 !! backing_path a fs2 = Some c) in Hc.
    rewrite He, (Hexist c Hc), Hmw. eexists. split; [reflexivity|].
    cbn [self env files ops warnings]. obj_simpl. by repeat split. }
  split; [apply backing_path_missing|].
  intros HP HB.
  assert (fs2 !! backing_path a fs2 = None) as Hnone.
  { by apply backing_path_missing. }
  pose proof (enter_open_missing (set__writable false t)
                (env s3) (backing_path a fs2) Hm Hnone) as Ho'.
  change (State (set__writable false t) (env s3)) with s3 in Ho'.
  rewrite <- He in Ho'.
  rewrite (session_enter_raises a b w _ _ Ho'). unfold s3. cbn [fst snd env files ops].
  do 3 (split; [done|]). split; [|split; [|split]].
  - intros q ??. unfold fs2. destruct (decide (q = _primary_path a)) as [->|].
    + rewrite after_recovery_primary. change (fs2 !! _primary_path a = None) in HP.
      unfold fs2 in HP. rewrite after_recovery_primary in HP.
      change (fs2 !! _backup_path a = None) in HB. unfold fs2 in HB.
      rewrite after_recovery_backup in HB. revert HP. unfold recovered_primary.
      rewrite HB. by destruct (files w !! _temporary_path a), (files w !! _primary_path a).
    + by apply after_recovery_other.
  - apply after_recovery_temporary.
  - apply after_recovery_probe.
  - intros HT HR. unfold fs2.
    rewrite (delete_id (files w)) by done. by apply recover_files_stable.
Qed.

(** A read of an existing primary: the handle is on P. *)
Lemma read_only_backing_file_witness :
  ∃ s4, __enter__ (State (two_phase_open (OpenArgs "f" Mr)) committed_world)
          = (Ok {| name := "f"; fmode := Mr; pos := 0 |}, s4).
Proof.
  destruct (proj1 (proj2 (proj2 (proj2 (
    read_only_backing_file (OpenArgs "f" Mr) [DoRead] committed_world _ _
      eq_refl eq_refl eq_refl)))) "old" eq_refl eq_refl) as (s4 & H & _).
  exists s4. exact H.
Defined.

(* --------------------------------------------------------------------- *)
(*  19. The probe file                                                   *)
(* --------------------------------------------------------------------- *)

Lemma path_open_not_found (p : string) (m : mode) (s s0 : state) :
  path_open p m s = (Raise FileNotFoundError, s0) →
  mode_creates m = false ∧ has_file (files (env s)) p = false.
Proof.
  destruct s as [t [fs os ws]]. unfold path_open. unfold_py.
  destruct m, (fs !! p); by intros [=].
Qed.

(** C9.  Whatever the probe does (return or raise), the probe file does
    not exist when it is done.  And when the open of the probe file raises
    [FileNotFoundError], the probe returns normally with [_writable] set to
    false and [__enter__] goes on with recovery, selection and the open of the
    backing file from there. *)
Theorem probe_tolerates_not_found (t : TwoPhaser) (w : world) :
  files (env (enter_probe (State t w)).2) !! probe_path (_args t) = None ∧
  (∀ s0, path_open (probe_path (_args t)) (config (_args t)) (State t w)
           = (Raise FileNotFoundError, s0) →
     ∃ s1, enter_probe (State t w) = (Ok tt, s1) ∧
           _writable (self s1) = Some false ∧
           __enter__ (State t w)
             = (_recover;; path_to_use ← enter_select; enter_open path_to_use) s1).
Proof.
  destruct (enter_probe_run t w) as [os Hp]. split.
  - rewrite Hp. cbn [snd env files]. apply lookup_delete_eq.
  - intros s0 Hopen. apply path_open_not_found in Hopen as [Hm HR].
    cbn [env] in HR. rewrite HR in Hp.
    assert (probe_outcome (config (_args t)) false = Ok false) as Ho.
    { by destruct (config (_args t)). }
    rewrite Ho in Hp. cbn [probe_result probe_self] in Hp.
    eexists. split; [exact Hp|]. split; [done|].
    unfold __enter__. by rewrite (bind_ok _ _ _ _ _ Hp).
Qed.

Lemma probe_tolerates_not_found_witness :
  ∃ s1, enter_probe (State (two_phase_open (OpenArgs "f" Mr)) committed_world)
          = (Ok tt, s1) ∧ _writable (self s1) = Some false.
Proof.
  destruct (proj2 (probe_tolerates_not_found (two_phase_open (OpenArgs "f" Mr))
                     committed_world) _ eq_refl) as (s1 & H1 & H2 & _).
  exists s1. by split.
Defined.

(* --------------------------------------------------------------------- *)
(*  20. __exit__ does not swallow exceptions                             *)
(* --------------------------------------------------------------------- *)

(** C10.  Whenever [__exit__] returns, it returns [False].  For a session
    whose body raises, [__exit__] does return: it closes the handle, and
    for a writable session unlinks T after that; the with-statement then
    raises the exception of the body. *)
Theorem exit_never_suppresses :
  (∀ (exception_type : option exn) (s s' : state) (r : bool),
     __exit__ exception_type s = (Ok r, s') → r = false) ∧
  (∀ (a : open_args) (b : list action) (w : world) (f : file_obj)
     (s1 s2 : state) (e : exn),
     __enter__ (State (two_phase_open a) w) = (Ok f, s1) →
     run_body b f s1 = (Raise e, s2) →
     ∃ s3, __exit__ (Some e) s2 = (Ok false, s3) ∧
           ops (env s3) = ops (env s2) ++ OpClose (name f) ::
             (if file_writable f then [OpUnlink (_temporary_path a)] else []) ∧
           session a b w = (Raise e, env s3)).
Proof.
  split.
  - intros e s s' r. unfold __exit__, bind.
    destruct (_close _ s) as [[[]|e'] s1]; by intros [= <- <-].
  - intros a b w f s1 s2 e He Hb.
    destruct (enter_ok_inv _ _ _ _ He) as (Ha & Hf & Hw & _).
    cbn [two_phase_open __init__ _args] in Ha.
    destruct (run_body_frame _ _ _ _ _ Hb) as (Hself & _).
    destruct s2 as [t2 w2]. cbn [self env] in *. subst t2.
    assert (∃ s3, __exit__ (Some e) (State (self s1) w2) = (Ok false, s3) ∧
              ops (env s3) = ops w2 ++ OpClose (name f) ::
                (if file_writable f then [OpUnlink (_temporary_path a)] else []))
      as (s3 & Hx & Hops).
    { destruct (file_writable f).
      - rewrite (__exit___rollback _ w2 f e Hf Hw). eexists. split; [done|].
        cbn [env ops]. by rewrite Ha.
      - rewrite (__exit___read_only _ w2 f (Some e) Hf Hw). by eexists. }
    exists s3. do 2 (split; [done|]).
    unfold session, with_stmt. by rewrite (bind_ok _ _ _ _ _ He), Hb, Hx.
Qed.

Lemma exit_never_suppresses_witness :
  ∃ s3, session (OpenArgs "f" Mr) [DoRead; DoRaise (CallerError 7)] committed_world
          = (Raise (CallerError 7), env s3).
Proof.
  destruct (proj2 exit_never_suppresses (OpenArgs "f" Mr)
              [DoRead; DoRaise (CallerError 7)] committed_world
              _ _ _ (CallerError 7) eq_refl eq_refl) as (s3 & _ & _ & H).
  by exists s3.
Defined.

(* --------------------------------------------------------------------- *)
(*  21. Sequences of writes                                              *)
(* --------------------------------------------------------------------- *)

(** One successful writable session: P is what was written, T is gone, and
    B is the primary recovery had left, if any, and the old B otherwise. *)
Lemma write_session_ok (a : open_args) (x : string) (w : world) r w' :
  mode_writable (config a) = true →
  session a [DoWrite x] w = (Ok r, w') →
  files w' !! _primary_path a = Some x ∧
  files w' !! _temporary_path a = None ∧
  files w' !! _backup_path a =
    match recovered_primary a (files w) with
    | Some c => Some c
    | None => files w !! _backup_path a
    end.
Proof.
  intros Hm Hs. set (t := two_phase_open a).
  destruct (__enter__ (State t w)) as [[f|e] s1] eqn:He.
  2: { by rewrite (session_enter_raises a _ w e s1 He) in Hs. }
  destruct (enter_ok_inv _ _ _ _ He) as (Ha & Hf & Hw & _ & Hfm & Hpos & _ & Hcase).
  cbn [t two_phase_open __init__ _args] in *.
  destruct Hcase as [(Hfw & Hc & _ & Hname & Hfs) | (_ & Hr & _)];
    [|by rewrite Hr in Hm].
  destruct f as [n m k]. cbn [name fmode pos] in *. subst n m k.
  destruct s1 as [t1 w1]. cbn [self env] in *.
  assert (files w1 !! _temporary_path a = Some "") as HT.
  { rewrite Hfs. apply lookup_insert_eq. }
  pose proof (run_body_write t1 w1 _ _ x Hc HT) as Hb.
  destruct (session_entered a [DoWrite x] w _ _ _ _ _ He Hf Hw Hb) as (os & _ & Hs').
  rewrite Hs in Hs'. injection Hs' as _ ->.
  cbn [self env files] in *. rewrite Ha, Hfw. cbn [close_files is_ok].
  name_paths a.
  rewrite commit_files_primary, commit_files_temporary, commit_files_backup.
  rewrite lookup_insert_eq, !lookup_insert_ne, Hfs, !lookup_insert_ne by done.
  by rewrite after_recovery_primary, after_recovery_backup.
Qed.

(** A creating mode, with no probe file in the way of an exclusive one,
    makes the session succeed, and leaves no probe file. *)
Lemma write_session_succeeds (a : open_args) (x : string) (w : world) :
  mode_creates (config a) = true → files w !! probe_path a = None →
  ∃ w', session a [DoWrite x] w = (Ok [], w') ∧ files w' !! probe_path a = None.
Proof.
  intros Hc HR. set (t := two_phase_open a).
  assert (probe_outcome (config (_args t))
            (has_file (files w) (probe_path (_args t))) = Ok true) as Ho.
  { cbn [t two_phase_open __init__ _args]. unfold has_file. rewrite HR.
    by destruct (config a). }
  destruct (enter_run_writable t w Ho) as (os & ws & He).
  cbn [t two_phase_open __init__ _args] in He. rewrite Hc in He.
  match type of He with _ = (Ok ?f, State ?t1 ?w1) =>
    pose proof (run_body_write t1 w1 (_temporary_path a) (config a) x Hc
                  (lookup_insert_eq _ _ _)) as Hb;
    destruct (session_entered a [DoWrite x] w f _ _ _ true He eq_refl eq_refl Hb)
      as (os' & _ & Hs)
  end.
  eexists. split; [exact Hs|]. cbn [files env self close_files is_ok]. obj_simpl.
  cbn [two_phase_open __init__ _args]. name_paths a.
  rewrite commit_files_other, !lookup_insert_ne by done.
  apply after_recovery_probe.
Qed.

Lemma write_sessions_app (a : open_args) (xs ys : list string) (w : world) :
  write_sessions a (xs ++ ys) w =
    ((write_sessions a xs w).1 ++ (write_sessions a ys (write_sessions a xs w).2).1,
     (write_sessions a ys (write_sessions a xs w).2).2).
Proof.
  revert w. induction xs as [|x xs IH]; intros w; cbn [write_sessions app].
  - cbn [fst snd app]. by destruct (write_sessions a ys w).
  - destruct (session a [DoWrite x] w) as [r w1]. rewrite IH.
    destruct (write_sessions a xs w1) as [rs w2]. cbn [fst snd].
    by destruct (write_sessions a ys w2).
Qed.

Lemma list_last_two {A} (xs : list A) :
  2 ≤ length xs → ∃ ys x1 x2, xs = ys ++ [x1; x2].
Proof.
  destruct xs as [|x2 xs _] using rev_ind; [cbn; lia|].
  destruct xs as [|x1 ys _] using rev_ind; [cbn; lia|].
  intros _. exists ys, x1, x2. by rewrite <- app_assoc.
Qed.

(** The hypothesis of C8 is not vacuous: in a creating mode, with no probe
    file left over, every session of the sequence succeeds. *)
Lemma write_sessions_succeed (a : open_args) (xs : list string) (w : world) :
  mode_creates (config a) = true → files w !! probe_path a = None →
  all_ok (write_sessions a xs w).1 = true.
Proof.
  intros Hc. revert w. induction xs as [|x xs IH]; intros w HR; [done|].
  cbn [write_sessions].
  destruct (write_session_succeeds a x w Hc HR) as (w1 & -> & HR1).
  specialize (IH w1 HR1). destruct (write_sessions a xs w1) as [rs w2].
  exact IH.
Qed.

(** C8.  After two or more successful writable sessions on one primary
    path, writing X1 .. XN in turn, P holds XN, B holds X(N-1) and T does
    not exist (the contents need not even be distinct). *)
Theorem write_sequencing (a : open_args) (xs : list string) (w : world) :
  2 ≤ length xs →
  mode_writable (config a) = true →
  all_ok (write_sessions a xs w).1 = true →
  files (write_sessions a xs w).2 !! _primary_path a = xs !! (length xs - 1) ∧
  files (write_sessions a xs w).2 !! _backup_path a = xs !! (length xs - 2) ∧
  files (write_sessions a xs w).2 !! _temporary_path a = None.
Proof.
  intros Hlen Hm Hok. destruct (list_last_two xs Hlen) as (ys & x1 & x2 & ->).
  rewrite write_sessions_app in *. cbn [fst snd] in *.
  unfold all_ok in Hok. rewrite forallb_app in Hok.
  apply andb_prop in Hok as [_ Hok].
  set (w0 := (write_sessions a ys w).2) in *.
  cbn [write_sessions] in *.
  destruct (session a [DoWrite x1] w0) as [r1 w1] eqn:H1.
  destruct (session a [DoWrite x2] w1) as [r2 w2] eqn:H2.
  cbn [fst snd forallb] in *.
  destruct r1 as [r1|e1]; [|done]. destruct r2 as [r2|e2]; [|done].
  destruct (write_session_ok a x1 w0 r1 w1 Hm H1) as (HP1 & _ & _).
  destruct (write_session_ok a x2 w1 r2 w2 Hm H2) as (HP2 & HT2 & HB2).
  rewrite (recovered_primary_existing _ _ _ HP1) in HB2.
  rewrite HP2, HB2, HT2, length_app. cbn [length].
  replace (length ys + 2 - 1) with (length ys + 1) by lia.
  replace (length ys + 2 - 2) with (length ys + 0) by lia.
  rewrite !lookup_app_r by lia.
  replace (length ys + 1 - length ys) with 1 by lia.
  replace (length ys + 0 - length ys) with 0 by lia.
  done.
Qed.

Lemma write_sequencing_witness :
  files (write_sessions (OpenArgs "f" Mw) ["x1"; "x2"; "x3"] committed_world).2
    !! "f" = Some "x3" ∧
  files (write_sessions (OpenArgs "f" Mw) ["x1"; "x2"; "x3"] committed_world).2
    !! "f.bak" = Some "x2".
Proof.
  destruct (write_sequencing (OpenArgs "f" Mw) ["x1"; "x2"; "x3"] committed_world)
    as (HP & HB & _).
  - cbn. lia.
  - reflexivity.
  - vm_compute. reflexivity.
  - split; [exact HP | exact HB].
Defined.

(* --------------------------------------------------------------------- *)
(*  22. The safe operations                                              *)
(* --------------------------------------------------------------------- *)



(* --------------------------------------------------------------------- *)
(*  23. More on recovery                                                 *)
(* --------------------------------------------------------------------- *)

(** X2.  Recovery is idempotent: run again on the state it has produced,
    [_recover] returns and changes nothing, not even the trace or the
    log. *)
Theorem recover_idempotent (s : state) :
  _recover (_recover s).2 = (Ok tt, (_recover s).2).
Proof.
  destruct s as [t [fs os ws]].
  destruct (_recover_run t (World fs os ws)) as (os' & ws' & ->).
  cbn [snd files ops warnings].
  pose proof (recover_files_temporary (_args t) fs) as HT.
  unfold _recover. unfold_py. by rewrite HT.
Qed.

(** X3.  Recovery never loses committed data: a primary that exists keeps
    its content, the backup is what it was, and no file other than T and P
    changes. *)
Theorem recover_keeps_committed (t : TwoPhaser) (w : world) :
  (∀ c, files w !! _primary_path (_args t) = Some c →
        files (env (_recover (State t w)).2) !! _primary_path (_args t) = Some c) ∧
  files (env (_recover (State t w)).2) !! _backup_path (_args t)
    = files w !! _backup_path (_args t) ∧
  (∀ q, q ≠ _temporary_path (_args t) → q ≠ _primary_path (_args t) →
        files (env (_recover (State t w)).2) !! q = files w !! q).
Proof.
  destruct (_recover_run t w) as (os & ws & ->). cbn [snd env files].
  split; [|split].
  - intros c HP. rewrite recover_files_primary.
    by apply recovered_primary_existing.
  - apply recover_files_backup.
  - intros q ??. by apply recover_files_other.
Qed.

Lemma recover_keeps_committed_witness :
  files (env (_recover (State (two_phase_open (OpenArgs "f" Mr))
                          {| files := {[ "f" := "old"; "f.tmp" := "stale" ]};
                             ops := []; warnings := [] |})).2) !! "f" = Some "old".
Proof.
  exact (proj1 (recover_keeps_committed (two_phase_open (OpenArgs "f" Mr))
                  {| files := {[ "f" := "old"; "f.tmp" := "stale" ]};
                     ops := []; warnings := [] |}) "old" eq_refl).
Defined.

(* --------------------------------------------------------------------- *)
(*  24. More on closing                                                  *)
(* --------------------------------------------------------------------- *)

(** X4.  A session is committed or rolled back once: whatever the first
    [_close] did (even if it raised), the object holds no file afterwards
    and a second [_close], normal or not, does nothing at all. *)
Theorem close_twice (s : state) (normal1 normal2 : bool) :
  _file (self (_close normal1 s).2) = None ∧
  _close normal2 (_close normal1 s).2 = (Ok tt, (_close normal1 s).2).
Proof.
  assert (_file (self (_close normal1 s).2) = None) as Hnone.
  { destruct s as [t [fs os ws]]. unfold _close. name_paths (_args t). unfold_py.
    destruct (_file t) as [f|] eqn:Hf; [|done]. obj_simpl.
    destruct (_writable t) as [[|]|]; [destruct normal1|..]; by exec fs. }
  split; [exact Hnone | by apply _close_no_file].
Qed.

(* --------------------------------------------------------------------- *)
(*  25. What a session can and cannot touch                              *)
(* --------------------------------------------------------------------- *)

(** A body run on a handle that is not writable changes nothing. *)
Lemma run_body_read_only (b : list action) (f : file_obj) (s : state) r s' :
  file_writable f = false → run_body b f s = (r, s') → s' = s.
Proof.
  revert f s r s'. induction b as [|[x| |e] b IH]; intros f s r s' Hf;
    cbn [run_body].
  - by intros [= <- <-].
  - unfold bind, file_write. rewrite Hf. unfold raise. by intros [= <- <-].
  - unfold bind at 1. destruct (file_read f s) as [[[c f']|e] s1] eqn:Hr;
      destruct (file_read_frame _ _ _ _ Hr) as [-> Hn].
    + destruct (Hn c f' eq_refl) as [_ Hm]. unfold bind.
      destruct (run_body b f' s) as [[rs|e] s2] eqn:Hb; intros [= <- <-];
        eapply IH; try exact Hb; unfold file_writable in *; by rewrite Hm.
    + by intros [= <- <-].
  - by intros [= <- <-].
Qed.

(** The ways [__enter__] raises, and the files it leaves then. *)
Lemma enter_raise_inv (t : TwoPhaser) (w : world) e s1 :
  __enter__ (State t w) = (Raise e, s1) →
  let a := _args t in
  _file (self s1) = (if decide (e = WritableMismatch) then None else _file t) ∧
  ((e = FileExistsError ∧ (config a = Mx ∨ config a = Mx_plus) ∧
    is_Some (files w !! probe_path a) ∧
    files (env s1) = delete (probe_path a) (files w))
   ∨
   ((e = FileNotFoundError ∨ e = WritableMismatch) ∧
    mode_creates (config a) = false ∧
    files (env s1) = recover_files a (delete (probe_path a) (files w)))).
Proof.
  intros He a.
  destruct (probe_outcome (config a) (has_file (files w) (probe_path a)))
    as [[|]|e'] eqn:Ho.
  - destruct (enter_run_writable t w Ho) as (os & ws & H). rewrite He in H.
    fold a in H. destruct (mode_creates (config a)) eqn:Hm; [done|].
    injection H as -> ->. cbn [self env files]. obj_simpl.
    split; [done|]. right. split; [by left|]. by split.
  - destruct (enter_run_read_only t w Ho) as (os & ws & H). rewrite He in H.
    fold a in H.
    assert (mode_creates (config a) = false) as Hm.
    { by destruct (probe_outcome_read_only _ _ Ho) as [-> | [-> _]]. }
    destruct (_ !! backing_path a _); [destruct (mode_writable (config a))|];
      try done; injection H as -> ->; cbn [self env files]; obj_simpl;
      (split; [done|]); right; (split; [by (left + right)|]); by split.
  - destruct (enter_probe_raises t w e' Ho) as (os & H). rewrite He in H.
    injection H as -> ->. cbn [self env files].
    destruct (probe_outcome_raise _ _ _ Ho) as (-> & HR & Hm).
    split; [done|]. left. repeat split; try done.
    unfold has_file in HR. by destruct (files w !! probe_path a).
Qed.

(** Outside of T, P and B, a session leaves the files it found, less the
    probe file. *)
Lemma session_lookup_other (a : open_args) (b : list action) (w : world) (q : string) :
  q ≠ _temporary_path a → q ≠ _primary_path a → q ≠ _backup_path a →
  files (session a b w).2 !! q = delete (probe_path a) (files w) !! q.
Proof.
  intros HqT HqP HqB. set (t := two_phase_open a).
  assert (recover_files a (delete (probe_path a) (files w)) !! q
          = delete (probe_path a) (files w) !! q) as Hrec.
  { by apply recover_files_other. }
  destruct (__enter__ (State t w)) as [[f|e] s1] eqn:He.
  - destruct (enter_ok_inv _ _ _ _ He) as (Ha & Hf & Hw & _ & _ & _ & _ & Hcase).
    cbn [t two_phase_open __init__ _args] in *.
    destruct (run_body b f s1) as [rb s2] eqn:Hb.
    destruct (session_entered a b w f s1 rb s2 _ He Hf Hw Hb) as (os & _ & ->).
    cbn [snd files]. rewrite Ha.
    destruct Hcase as [(-> & _ & _ & Hname & Hfs) | (Hro & _ & _ & _ & Hfs)].
    + destruct (run_body_frame _ _ _ _ _ Hb) as (_ & _ & _ & Hq & _).
      rewrite Hname in Hq. unfold close_files.
      destruct (is_ok rb);
        [rewrite commit_files_other by done | rewrite lookup_delete_ne by done];
        by rewrite Hq, Hfs, lookup_insert_ne.
    + rewrite Hro. cbn [close_files].
      by rewrite (run_body_read_only _ _ _ _ _ Hro Hb), Hfs.
  - rewrite (session_enter_raises a b w e s1 He). cbn [snd].
    destruct (enter_raise_inv _ _ _ _ He) as (_ & [(_ & _ & _ & ->) | (_ & _ & ->)]);
      by cbn [t two_phase_open __init__ _args].
Qed.

(** X5.  A session touches four paths only: whatever the mode, the body
    and the outcome, every file other than P, B, T and the probe file is at
    the end what it was at the start, and the probe file does not exist. *)
Theorem session_touches_four_paths (a : open_args) (b : list action) (w : world) :
  files (session a b w).2 !! probe_path a = None ∧
  ∀ q, q ≠ _primary_path a → q ≠ _backup_path a → q ≠ _temporary_path a →
       q ≠ probe_path a →
       files (session a b w).2 !! q = files w !! q.
Proof.
  name_paths a. split.
  - rewrite session_lookup_other by done. apply lookup_delete_eq.
  - intros q ????. rewrite session_lookup_other by done.
    by apply lookup_delete_ne.
Qed.

Lemma session_touches_four_paths_witness :
  files (session (OpenArgs "f" Mw) [DoWrite "new"]
           {| files := {[ "f" := "old"; "g" := "other" ]};
              ops := []; warnings := [] |}).2 !! "g" = Some "other".
Proof.
  refine (proj2 (session_touches_four_paths (OpenArgs "f" Mw) [DoWrite "new"]
                   {| files := {[ "f" := "old"; "g" := "other" ]};
                      ops := []; warnings := [] |}) "g" _ _ _ _);
    discriminate.
Defined.

(** X6.  While the body runs, P and B do not change, whatever the body
    does: a writable session has its handle on T, and the handle of a
    read-only session refuses writes. *)
Theorem body_cannot_touch_committed (a : open_args) (b : list action) (w : world)
    (f : file_obj) (s1 s2 : state) (r : result (list string)) :
  __enter__ (State (two_phase_open a) w) = (Ok f, s1) →
  run_body b f s1 = (r, s2) →
  files (env s2) !! _primary_path a = files (env s1) !! _primary_path a ∧
  files (env s2) !! _backup_path a = files (env s1) !! _backup_path a.
Proof.
  intros He Hb.
  destruct (enter_ok_inv _ _ _ _ He) as (_ & _ & _ & _ & _ & _ & _ & Hcase).
  cbn [two_phase_open __init__ _args] in Hcase. name_paths a.
  destruct Hcase as [(_ & _ & _ & Hname & _) | (Hro & _)].
  - destruct (run_body_frame _ _ _ _ _ Hb) as (_ & _ & _ & Hq & _).
    rewrite Hname in Hq. by rewrite !Hq.
  - by rewrite (run_body_read_only _ _ _ _ _ Hro Hb).
Qed.

Lemma body_cannot_touch_committed_witness :
  ∃ s2, run_body [DoWrite "junk"; DoRead]
          {| name := "f"; fmode := Mr; pos := 0 |}
          (__enter__ (State (two_phase_open (OpenArgs "f" Mr)) committed_world)).2
        = (Raise UnsupportedOperation, s2) ∧
        files (env s2) !! "f" = Some "old".
Proof.
  eexists. split; [reflexivity|].
  exact (proj1 (body_cannot_touch_committed (OpenArgs "f" Mr)
                  [DoWrite "junk"; DoRead] committed_world _ _ _ _
                  eq_refl eq_refl)).
Defined.

(* --------------------------------------------------------------------- *)
(*  26. Reading                                                          *)
(* --------------------------------------------------------------------- *)

(** [__enter__] in mode 'r': a handle on the backing file when there is one. *)
Lemma enter_read_run (a : open_args) (w : world) :
  config a = Mr →
  let fs2 := recover_files a (delete (probe_path a) (files w)) in
  let p := backing_path a fs2 in
  let f := {| name := p; fmode := Mr; pos := 0 |} in
  ∃ s1, files (env s1) = fs2 ∧
    __enter__ (State (two_phase_open a) w) =
      match fs2 !! p with
      | Some _ => (Ok f, s1)
      | None => (Raise FileNotFoundError, s1)
      end ∧
    (is_Some (fs2 !! p) → _file (self s1) = Some f ∧ _writable (self s1) = Some false).
Proof.
  intros Hm fs2 p f. set (t := two_phase_open a).
  assert (probe_outcome (config (_args t))
            (has_file (files w) (probe_path (_args t))) = Ok false) as Ho.
  { cbn. by rewrite Hm. }
  destruct (enter_run_read_only t w Ho) as (os & ws & ->).
  cbn [t two_phase_open __init__ _args]. fold fs2 p. rewrite Hm.
  cbn [mode_writable]. fold f.
  destruct (fs2 !! p) as [c|]; (eexists; split; [|split]).
  2, 5: reflexivity.
  all: done.
Qed.

Lemma session_read_files (a : open_args) (b : list action) (w : world) :
  config a = Mr →
  files (session a b w).2 = recover_files a (delete (probe_path a) (files w)).
Proof.
  intros Hm. destruct (enter_read_run a w Hm) as (s1 & Hfs & He & Hself).
  cbv zeta in *.
  destruct (_ !! backing_path a _) as [c|].
  - destruct (Hself (mk_is_Some _ _ eq_refl)) as [Hf Hw].
    match type of He with _ = (Ok ?f, _) =>
      destruct (run_body b f s1) as [rb s2] eqn:Hb end.
    destruct (session_entered a b w _ s1 rb s2 false He Hf Hw Hb) as (os & _ & ->).
    cbn [snd files close_files].
    assert (s2 = s1) as -> by (by eapply run_body_read_only; [|exact Hb]).
    done.
  - by rewrite (session_enter_raises a b w _ _ He).
Qed.

(** X7.  A session in mode 'r' does to the files what the probe and
    recovery do and nothing more, whatever its body attempts and however
    it ends: the files at the end are the files recovery left. *)
Theorem read_session_files (a : open_args) (b : list action) (w : world) :
  config a = Mr →
  files (session a b w).2 = recover_files a (delete (probe_path a) (files w)).
Proof. apply session_read_files. Qed.

Lemma read_session_files_witness :
  files (session (OpenArgs "f" Mr) [DoWrite "junk"] committed_world).2
    = recover_files (OpenArgs "f" Mr)
        (delete (probe_path (OpenArgs "f" Mr)) (files committed_world)).
Proof.
  exact (read_session_files (OpenArgs "f" Mr) [DoWrite "junk"] committed_world eq_refl).
Defined.

Lemma session_read_outcome (a : open_args) (w : world) :
  config a = Mr →
  (session a [DoRead] w).1 = read_outcome a (files w).
Proof.
  intros Hm. destruct (enter_read_run a w Hm) as (s1 & Hfs & He & Hself).
  cbv zeta in *. unfold read_outcome.
  pose proof (after_recovery_primary a (files w)) as HP.
  pose proof (after_recovery_backup a (files w)) as HB.
  set (fs2 := recover_files a (delete (probe_path a) (files w))) in *.
  assert (fs2 !! backing_path a fs2 =
          match fs2 !! _primary_path a with
          | Some c => Some c
          | None => fs2 !! _backup_path a
          end) as Hbp.
  { unfold backing_path, serves_backup, has_file.
    destruct (fs2 !! _primary_path a) eqn:HP2, (fs2 !! _backup_path a) eqn:HB2;
      cbn; by rewrite ?HP2, ?HB2. }
  rewrite HP, HB in Hbp. rewrite Hbp in He, Hself.
  assert (∀ c, fs2 !! backing_path a fs2 = Some c → (session a [DoRead] w).1 = Ok [c])
    as Hread.
  { intros c Hc. rewrite Hbp in Hc.
    assert (is_Some (match recovered_primary a (files w) with
                     | Some c => Some c
                     | None => files w !! _backup_path a
                     end)) as Hsome by (by rewrite Hc).
    destruct (Hself Hsome) as [Hf Hw]. rewrite Hc in He.
    assert (run_body [DoRead] {| name := backing_path a fs2; fmode := Mr; pos := 0 |} s1
            = (Ok [c], s1)) as Hb.
    { destruct s1 as [t1 w1]. apply run_body_read; [done|].
      cbn [env] in Hfs. rewrite Hfs. by rewrite Hbp. }
    by destruct (session_entered a [DoRead] w _ s1 _ s1 false He Hf Hw Hb)
      as (os & _ & ->). }
  rewrite Hbp in Hread.
  destruct (recovered_primary a (files w)) as [c|]; [by apply Hread|].
  destruct (files w !! _backup_path a) as [c|]; [by apply Hread|].
  by rewrite (session_enter_raises a _ w _ _ He).
Qed.

(** [__enter__] in mode 'r', from the files the session starts with. *)
Lemma enter_read_served (a : open_args) (w : world) :
  config a = Mr →
  files (env (__enter__ (State (two_phase_open a) w)).2)
    = recover_files a (delete (probe_path a) (files w)) ∧
  (∀ c, recovered_primary a (files w) = Some c →
     (__enter__ (State (two_phase_open a) w)).1
       = Ok {| name := _primary_path a; fmode := Mr; pos := 0 |} ∧
     files (env (__enter__ (State (two_phase_open a) w)).2) !! _primary_path a
       = Some c) ∧
  (∀ c, recovered_primary a (files w) = None → files w !! _backup_path a = Some c →
     (__enter__ (State (two_phase_open a) w)).1
       = Ok {| name := _backup_path a; fmode := Mr; pos := 0 |} ∧
     files (env (__enter__ (State (two_phase_open a) w)).2) !! _backup_path a
       = Some c) ∧
  (recovered_primary a (files w) = None → files w !! _backup_path a = None →
     (__enter__ (State (two_phase_open a) w)).1 = Raise FileNotFoundError).
Proof.
  intros Hm. destruct (enter_read_run a w Hm) as (s1 & Hfs & He & _).
  cbv zeta in He.
  pose proof (after_recovery_primary a (files w)) as HP.
  pose proof (after_recovery_backup a (files w)) as HB.
  set (fs2 := recover_files a (delete (probe_path a) (files w))) in *.
  assert (files (env (__enter__ (State (two_phase_open a) w)).2) = fs2) as Hfiles.
  { rewrite He. by destruct (fs2 !! backing_path a fs2). }
  rewrite Hfiles. split; [done|].
  unfold backing_path, serves_backup, has_file in He. rewrite HP, HB in He.
  split; [|split].
  - intros c Hc. rewrite Hc in He. rewrite andb_false_r in He.
    rewrite HP, Hc in He. by rewrite He, HP.
  - intros c Hc Hb. rewrite Hc, Hb in He. cbn [andb negb] in He.
    rewrite HB, Hb in He. by rewrite He, HB.
  - intros Hc Hb. rewrite Hc, Hb in He. cbn [andb negb] in He.
    rewrite HP, Hc in He. by rewrite He.
Qed.

(** X8.  Which file a read is served from, from the files the session
    starts with.  In mode 'r' the handle is on P when P exists, and P
    holds what it held; it is on P, holding what T held, when T and B
    exist without P (the interrupted commit is completed first);
    otherwise it is on B, holding what B held, when B exists; otherwise
    [__enter__] raises [FileNotFoundError].  The handle is at position 0,
    and the files then are the ones recovery left. *)
Theorem read_served_from (a : open_args) (w : world) :
  config a = Mr →
  files (env (__enter__ (State (two_phase_open a) w)).2)
    = recover_files a (delete (probe_path a) (files w)) ∧
  match files w !! _primary_path a, files w !! _temporary_path a,
        files w !! _backup_path a with
  | Some c, _, _ | None, Some c, Some _ =>
      (__enter__ (State (two_phase_open a) w)).1
        = Ok {| name := _primary_path a; fmode := Mr; pos := 0 |} ∧
      files (env (__enter__ (State (two_phase_open a) w)).2) !! _primary_path a
        = Some c
  | None, _, Some c =>
      (__enter__ (State (two_phase_open a) w)).1
        = Ok {| name := _backup_path a; fmode := Mr; pos := 0 |} ∧
      files (env (__enter__ (State (two_phase_open a) w)).2) !! _backup_path a
        = Some c
  | None, _, None =>
      (__enter__ (State (two_phase_open a) w)).1 = Raise FileNotFoundError
  end.
Proof.
  intros Hm. destruct (enter_read_served a w Hm) as (Hfs & HP & HB & Hnone).
  split; [exact Hfs|]. unfold recovered_primary in HP, HB, Hnone.
  destruct (files w !! _primary_path a) as [cp|],
    (files w !! _temporary_path a) as [ct|],
    (files w !! _backup_path a) as [cb|]; auto.
Qed.

Lemma read_served_from_witness :
  (__enter__ (State (two_phase_open (OpenArgs "f" Mr)) interrupted_world)).1
    = Ok {| name := "f"; fmode := Mr; pos := 0 |}.
Proof.
  exact (proj1 (proj2 (read_served_from (OpenArgs "f" Mr) interrupted_world eq_refl))).
Defined.

(* --------------------------------------------------------------------- *)
(*  27. Writing                                                          *)
(* --------------------------------------------------------------------- *)

Lemma string_app_assoc (s1 s2 s3 : string) : (s1 +:+ s2) +:+ s3 = s1 +:+ s2 +:+ s3.
Proof.
  induction s1 as [|c s1 IH]; [done|].
  change (String c ((s1 +:+ s2) +:+ s3) = String c (s1 +:+ s2 +:+ s3)). by f_equal.
Qed.

Lemma substring_none (n : nat) (s : string) : String.substring n 0 s = "".
Proof. revert n. induction s as [|c s IH]; intros [|n]; cbn; auto. Qed.

(** A write at the end of a file appends. *)
Lemma write_at_end (c s : string) : write_at (String.length c) s c = c +:+ s.
Proof.
  unfold write_at. rewrite substring_whole.
  replace (String.length c - (String.length c + String.length s)) with 0 by lia.
  by rewrite substring_none, string_app_nil_r.
Qed.

(** A body of writes on a handle positioned at the end of its file (any
    handle, in an append mode) leaves the file with the texts appended in
    order. *)
Lemma run_body_writes (xs : list string) (t : TwoPhaser) (w : world) (p : string)
    (m : mode) (c : string) (k : nat) :
  mode_writable m = true → files w !! p = Some c →
  (is_append m = false → k = String.length c) →
  run_body (DoWrite <$> xs) {| name := p; fmode := m; pos := k |} (State t w) =
    (Ok [], State t {| files := <[p := c +:+ written xs]> (files w);
                       ops := ops w; warnings := warnings w |}).
Proof.
  intros Hm. revert w c k. induction xs as [|x xs IH]; intros [fs os ws] c k Hp Hk;
    cbn [files ops warnings] in *.
  - cbn. rewrite string_app_nil_r. by rewrite insert_id.
  - cbn [fmap list_fmap run_body]. unfold bind at 1, file_write, file_writable.
    cbn [fmode name pos]. rewrite Hm. unfold_py. rewrite Hp.
    assert ((if is_append m then String.length c else k) = String.length c) as ->.
    { destruct (is_append m); [done | by apply Hk]. }
    rewrite write_at_end.
    rewrite (IH (World (<[p := c +:+ x]> fs) os ws) (c +:+ x)); cbn [files ops warnings].
    + cbn [written foldr]. by rewrite insert_insert_eq, string_app_assoc.
    + apply lookup_insert_eq.
    + intros _. by rewrite string_app_length.
Qed.

(** X9.  What a successful writable session commits is exactly what its
    body wrote, the texts of all its writes in order, in every mode that
    writes, the append modes included: the previous content of P is never
    kept in P, it moves to B (as recovery left it), and B is untouched
    when there was no P.  T does not exist afterwards. *)
Theorem write_session_commits (a : open_args) (xs : list string) (w : world)
    (r : list string) (w' : world) :
  mode_writable (config a) = true →
  session a (DoWrite <$> xs) w = (Ok r, w') →
  files w' !! _primary_path a = Some (written xs) ∧
  files w' !! _backup_path a =
    match recovered_primary a (files w) with
    | Some c => Some c
    | None => files w !! _backup_path a
    end ∧
  files w' !! _temporary_path a = None.
Proof.
  intros Hm Hs. set (t := two_phase_open a).
  destruct (__enter__ (State t w)) as [[f|e] s1] eqn:He.
  2: { by rewrite (session_enter_raises a _ w e s1 He) in Hs. }
  destruct (enter_ok_inv _ _ _ _ He) as (Ha & Hf & Hw & _ & Hfm & Hpos & _ & Hcase).
  cbn [t two_phase_open __init__ _args] in *.
  destruct Hcase as [(Hfw & Hc & _ & Hname & Hfs) | (_ & Hr & _)];
    [|by rewrite Hr in Hm].
  destruct f as [n m k]. cbn [name fmode pos] in *. subst n m k.
  destruct s1 as [t1 w1]. cbn [self env] in *.
  assert (files w1 !! _temporary_path a = Some "") as HT.
  { rewrite Hfs. apply lookup_insert_eq. }
  pose proof (run_body_writes xs t1 w1 _ _ "" 0 Hm HT (λ _, eq_refl)) as Hb.
  destruct (session_entered a _ w _ _ _ _ _ He Hf Hw Hb) as (os & _ & Hs').
  rewrite Hs in Hs'. injection Hs' as _ ->.
  cbn [self env files] in *. rewrite Ha, Hfw. cbn [close_files is_ok].
  name_paths a.
  rewrite commit_files_primary, commit_files_temporary, commit_files_backup.
  rewrite lookup_insert_eq, !lookup_insert_ne, Hfs, !lookup_insert_ne by done.
  by rewrite after_recovery_primary, after_recovery_backup.
Qed.

Lemma write_session_commits_witness :
  files (session (OpenArgs "f" Ma) (DoWrite <$> ["ab"; "cd"]) committed_world).2
    !! "f" = Some "abcd".
Proof.
  destruct (session (OpenArgs "f" Ma) (DoWrite <$> ["ab"; "cd"]) committed_world)
    as [r w'] eqn:Hs.
  assert (r = Ok []) as ->.
  { change r with (r, w').1. rewrite <- Hs. vm_compute. reflexivity. }
  exact (proj1 (write_session_commits (OpenArgs "f" Ma) ["ab"; "cd"] committed_world
                  [] w' eq_refl Hs)).
Defined.

Lemma write_session_primary (a : open_args) (xs : list string) (w : world)
    (r : list string) (w' : world) :
  mode_writable (config a) = true →
  session a (DoWrite <$> xs) w = (Ok r, w') →
  files w' !! _primary_path a = Some (written xs).
Proof.
  intros Hm Hs. set (t := two_phase_open a).
  destruct (__enter__ (State t w)) as [[f|e] s1] eqn:He.
  2: { by rewrite (session_enter_raises a _ w e s1 He) in Hs. }
  destruct (enter_ok_inv _ _ _ _ He) as (Ha & Hf & Hw & _ & Hfm & Hpos & _ & Hcase).
  cbn [t two_phase_open __init__ _args] in *.
  destruct Hcase as [(Hfw & Hc & _ & Hname & Hfs) | (_ & Hr & _)];
    [|by rewrite Hr in Hm].
  destruct f as [n m k]. cbn [name fmode pos] in *. subst n m k.
  destruct s1 as [t1 w1]. cbn [self env] in *.
  assert (files w1 !! _temporary_path a = Some "") as HT.
  { rewrite Hfs. apply lookup_insert_eq. }
  pose proof (run_body_writes xs t1 w1 _ _ "" 0 Hm HT (λ _, eq_refl)) as Hb.
  destruct (session_entered a _ w _ _ _ _ _ He Hf Hw Hb) as (os & _ & Hs').
  rewrite Hs in Hs'. injection Hs' as _ ->.
  cbn [self env files] in *. rewrite Ha, Hfw. cbn [close_files is_ok].
  by rewrite commit_files_primary, lookup_insert_eq.
Qed.

(** X10.  Write, then read: after a session that wrote and ended
    normally, a session in mode 'r' on the same primary path gets its
    handle on P, never on B, at position 0, P holds what the writes of the
    first session left in it, in order, and T does not exist; whatever the
    files were before the write. *)
Theorem read_after_write_served_from_primary (a : open_args) (xs : list string)
    (w : world) (r : list string) (w' : world) :
  mode_writable (config a) = true →
  session a (DoWrite <$> xs) w = (Ok r, w') →
  (__enter__ (State (two_phase_open {| primary := primary a; config := Mr |}) w')).1
    = Ok {| name := _primary_path a; fmode := Mr; pos := 0 |} ∧
  files (env (__enter__ (State (two_phase_open {| primary := primary a; config := Mr |})
                           w')).2) !! _primary_path a = Some (written xs) ∧
  files (env (__enter__ (State (two_phase_open {| primary := primary a; config := Mr |})
                           w')).2) !! _temporary_path a = None.
Proof.
  intros Hm Hs. pose proof (write_session_primary a xs w r w' Hm Hs) as HP.
  destruct (enter_read_served {| primary := primary a; config := Mr |} w' eq_refl)
    as (Hfs & Hserved & _).
  destruct (Hserved (written xs)) as [H1 H2].
  { by apply (recovered_primary_existing {| primary := primary a; config := Mr |}). }
  split; [exact H1|]. split; [exact H2|].
  rewrite Hfs.
  apply (after_recovery_temporary {| primary := primary a; config := Mr |}).
Qed.

Lemma read_after_write_served_from_primary_witness :
  (__enter__ (State (two_phase_open (OpenArgs "f" Mr))
                (session (OpenArgs "f" Mw) (DoWrite <$> ["new"]) interrupted_world).2)).1
    = Ok {| name := "f"; fmode := Mr; pos := 0 |}.
Proof.
  destruct (session (OpenArgs "f" Mw) (DoWrite <$> ["new"]) interrupted_world)
    as [r w'] eqn:Hs.
  assert (r = Ok []) as ->.
  { change r with (r, w').1. rewrite <- Hs. vm_compute. reflexivity. }
  exact (proj1 (read_after_write_served_from_primary (OpenArgs "f" Mw) ["new"]
                  interrupted_world [] w' eq_refl Hs)).
Defined.

(* --------------------------------------------------------------------- *)
(*  28. Modes that do not get a session                                  *)
(* --------------------------------------------------------------------- *)

(** X11.  A probe file left over breaks the exclusive modes once: under
    'x' or 'x+' with the probe file present, the session raises
    [FileExistsError] from the probe, the body does not run, no recovery
    takes place, and the only change to the files is that the probe file is
    gone. *)
Theorem exclusive_probe_left_over (a : open_args) (b : list action) (w : world) :
  config a = Mx ∨ config a = Mx_plus →
  is_Some (files w !! probe_path a) →
  (session a b w).1 = Raise FileExistsError ∧
  files (session a b w).2 = delete (probe_path a) (files w).
Proof.
  intros Hm [c HR]. set (t := two_phase_open a).
  assert (probe_outcome (config (_args t))
            (has_file (files w) (probe_path (_args t))) = Raise FileExistsError) as Ho.
  { cbn [t two_phase_open __init__ _args]. unfold has_file. rewrite HR.
    by destruct Hm as [-> | ->]. }
  destruct (enter_probe_raises t w _ Ho) as (os & He).
  by rewrite (session_enter_raises a b w _ _ He).
Qed.

Lemma exclusive_probe_left_over_witness :
  files (session (OpenArgs "f" Mx) [DoWrite "new"]
           {| files := {[ "f.prb" := ""; "f.tmp" := "stale" ]};
              ops := []; warnings := [] |}).2 !! "f.tmp" = Some "stale".
Proof.
  destruct (exclusive_probe_left_over (OpenArgs "f" Mx) [DoWrite "new"]
              {| files := {[ "f.prb" := ""; "f.tmp" := "stale" ]};
                 ops := []; warnings := [] |}) as [_ Hfs].
  - by left.
  - exists "". vm_compute. reflexivity.
  - rewrite Hfs. vm_compute. reflexivity.
Defined.

(** X12.  Mode 'r+' never gets a handle: [__enter__] raises
    [WritableMismatch] or [FileNotFoundError] in every world, and the
    with-statement ends with that exception without running its body. *)
Theorem read_update_never_opens (a : open_args) (w : world) :
  config a = Mr_plus →
  ∃ e s1, __enter__ (State (two_phase_open a) w) = (Raise e, s1) ∧
          (e = WritableMismatch ∨ e = FileNotFoundError) ∧
          ∀ b, session a b w = (Raise e, env s1).
Proof.
  intros Hm. destruct (__enter__ (State (two_phase_open a) w)) as [[f|e] s1] eqn:He.
  - destruct (enter_ok_inv _ _ _ _ He) as (_ & _ & _ & _ & _ & _ & _ & Hcase).
    cbn [two_phase_open __init__ _args] in Hcase. rewrite Hm in Hcase.
    by destruct Hcase as [(_ & ? & _) | (_ & ? & _)].
  - exists e, s1. split; [done|]. split.
    + destruct (enter_raise_inv _ _ _ _ He) as (_ & [(_ & Hx & _) | (He' & _)]).
      * cbn [two_phase_open __init__ _args] in Hx. rewrite Hm in Hx.
        by destruct Hx.
      * by destruct He'; [right | left].
    + intros b. by apply session_enter_raises.
Qed.

Lemma read_update_never_opens_witness :
  ∃ e, (session (OpenArgs "f" Mr_plus) [DoRead] committed_world).1 = Raise e.
Proof.
  destruct (read_update_never_opens (OpenArgs "f" Mr_plus) committed_world eq_refl)
    as (e & s1 & _ & _ & Hs).
  exists e. by rewrite Hs.
Defined.

(* --------------------------------------------------------------------- *)
(*  29. The object after the with-statement                              *)
(* --------------------------------------------------------------------- *)

(** X13.  The object holds no file when the with-statement is over,
    whatever the mode, the body and the outcome: after a failure of
    [__enter__] as after [__exit__], [_file] is [None]. *)
Theorem no_file_retained (a : open_args) (b : list action) (w : world) :
  _file (self (session_end a b w)) = None.
Proof.
  unfold session_end, with_stmt.
  destruct (__enter__ (State (two_phase_open a) w)) as [[f|e] s1] eqn:He.
  - rewrite (bind_ok _ _ _ _ _ He).
    destruct (enter_ok_inv _ _ _ _ He) as (_ & Hf & Hw & _).
    destruct (run_body b f s1) as [rb s2] eqn:Hb.
    destruct (session_entered a b w f s1 rb s2 _ He Hf Hw Hb) as (os & Hx & _).
    destruct rb as [r|e]; cbn [exception_of] in Hx; by rewrite Hx.
  - rewrite (bind_raise _ _ _ _ _ He). cbn [snd].
    destruct (enter_raise_inv _ _ _ _ He) as (-> & _).
    by destruct (decide (e = WritableMismatch)).
Qed.

(* --------------------------------------------------------------------- *)
(*  30. Composition: reads after reads, reads after interrupted commits *)
(* --------------------------------------------------------------------- *)

Lemma read_outcome_recovered (a : open_args) (fs : gmap string string) :
  read_outcome a (recover_files a (delete (probe_path a) fs)) = read_outcome a fs.
Proof.
  unfold read_outcome.
  set (fs2 := recover_files a (delete (probe_path a) fs)).
  assert (recovered_primary a fs2 = recovered_primary a fs) as ->.
  { unfold recovered_primary at 1. unfold fs2.
    by rewrite after_recovery_temporary, after_recovery_primary. }
  unfold fs2. by rewrite after_recovery_backup.
Qed.

(** X14.  Reading is stable: after any session in mode 'r', a read
    returns what a read would have returned before that session, and it
    changes no file. *)
Theorem read_after_read (a : open_args) (b : list action) (w : world) :
  config a = Mr →
  (session a [DoRead] (session a b w).2).1 = (session a [DoRead] w).1 ∧
  files (session a [DoRead] (session a b w).2).2 = files (session a b w).2.
Proof.
  intros Hm. split.
  - rewrite !session_read_outcome, session_read_files by done.
    apply read_outcome_recovered.
  - rewrite (session_read_files a [DoRead]), (session_read_files a b) by done.
    rewrite (delete_id _ (probe_path a)) by apply after_recovery_probe.
    apply recover_files_stable, after_recovery_temporary.
Qed.

Lemma read_after_read_witness :
  (session (OpenArgs "f" Mr) [DoRead]
     (session (OpenArgs "f" Mr) [DoRead] interrupted_world).2).1 = Ok ["stale"].
Proof.
  rewrite (proj1 (read_after_read (OpenArgs "f" Mr) [DoRead] interrupted_world eq_refl)).
  vm_compute. reflexivity.
Defined.

Lemma read_outcome_primary_only (a : open_args) (m : mode) (fs : gmap string string) :
  read_outcome {| primary := primary a; config := m |} fs = read_outcome a fs.
Proof. reflexivity. Qed.

(** X15.  A commit over an existing primary that is interrupted for
    good.  Take the file operations of the commit one at a time, as
    [_close] makes them: the unlink of B, the rename of P to B, the rename
    of T to P; the three together leave the files [_close] leaves.  If
    nothing more happens after one of them, a later session in mode 'r'
    gets its handle on P, and P then holds the old content up to the
    rename of P to B and the new content from then on.  This is about a
    commit that stops, not about a reader that runs while the commit goes
    on: if any session in mode 'r' runs after the unlink of B and the
    commit then continues, the reader's recovery has removed T, and the
    commit ends with no P, the old content in B and the new content
    nowhere. *)
Theorem interrupted_commit_serves_old_or_new (t : TwoPhaser) (w : world)
    (old new : string) :
  files w !! _primary_path (_args t) = Some old →
  files w !! _temporary_path (_args t) = Some new →
  let a := _args t in
  let reader := {| primary := primary a; config := Mr |} in
  let served (w' : world) :=
    ((__enter__ (State (two_phase_open reader) w')).1,
     files (env (__enter__ (State (two_phase_open reader) w')).2) !! _primary_path a) in
  let on_primary : result file_obj :=
    Ok {| name := _primary_path a; fmode := Mr; pos := 0 |} in
  let s0 := State t w in
  let s1 := (_safe_delete (_backup_path a) s0).2 in
  let s2 := (_safe_rename (_primary_path a) (_backup_path a) s1).2 in
  let s3 := (_safe_rename (_temporary_path a) (_primary_path a) s2).2 in
  served (env s0) = (on_primary, Some old) ∧
  served (env s1) = (on_primary, Some old) ∧
  served (env s2) = (on_primary, Some new) ∧
  served (env s3) = (on_primary, Some new) ∧
  (∀ f, _file t = Some f → _writable t = Some true →
        files (env (_close true s0).2) = files (env s3)) ∧
  (∀ b : list action,
     let s1' := State (self s1) (session reader b (env s1)).2 in
     let s2' := (_safe_rename (_primary_path a) (_backup_path a) s1').2 in
     let s3' := (_safe_rename (_temporary_path a) (_primary_path a) s2').2 in
     files (env s3') !! _primary_path a = None ∧
     files (env s3') !! _backup_path a = Some old ∧
     files (env s3') !! _temporary_path a = None).
Proof.
  intros HP HT a reader served on_primary s0 s1 s2 s3. fold a in HP, HT.
  destruct w as [fs os ws]. cbn [files] in HP, HT. name_paths a.
  assert (files (env s1) = delete (_backup_path a) fs) as Hs1.
  { unfold s1, s0. unfold_py.
    destruct (fs !! _backup_path a) eqn:HB; cbn [snd env files]; [done|].
    by rewrite delete_id. }
  assert (files (env s2)
          = <[_backup_path a := old]> (delete (_primary_path a) (delete (_backup_path a) fs)))
    as Hs2.
  { unfold s2. destruct s1 as [t1 [fs1 os1 ws1]]. cbn [env files] in Hs1. subst fs1.
    unfold_py. rewrite lookup_delete_ne, HP by done. done. }
  assert (files (env s3) = commit_files a fs) as Hs3.
  { unfold s3. destruct s2 as [t2 [fs2 os2 ws2]]. cbn [env files] in Hs2. subst fs2.
    unfold commit_files. rewrite HP. unfold_py.
    rewrite lookup_insert_ne, lookup_delete_ne, lookup_delete_ne, HT by done. done. }
  assert (∀ w' c, recovered_primary a (files w') = Some c →
            served w' = (on_primary, Some c)) as Hserved.
  { intros w' c Hc.
    destruct (enter_read_served reader w' eq_refl) as (_ & Hp & _).
    destruct (Hp c Hc) as [Hres Hcontent]. unfold served.
    f_equal; [exact Hres | exact Hcontent]. }
  split.
  { apply Hserved. by apply recovered_primary_existing. }
  split.
  { apply Hserved. apply recovered_primary_existing.
    by rewrite Hs1, lookup_delete_ne. }
  split.
  { apply Hserved. rewrite Hs2. unfold recovered_primary.
    rewrite lookup_insert_eq.
    rewrite !lookup_insert_ne, lookup_delete_eq, !lookup_delete_ne, HT by done.
    done. }
  split.
  { apply Hserved. apply recovered_primary_existing.
    by rewrite Hs3, commit_files_primary. }
  split.
  { intros f Hf Hw. rewrite Hs3. unfold s0.
    by destruct (_close_run t (World fs os ws) f true true Hf Hw) as (os' & ->). }
  intros b. cbv zeta.
  assert (files (session reader b (env s1)).2
          = delete (_temporary_path a) (delete (probe_path a) (delete (_backup_path a) fs)))
    as Hr1.
  { rewrite (session_read_files reader b) by done.
    rewrite Hs1. change (recover_files reader) with (recover_files a).
    change (probe_path reader) with (probe_path a).
    unfold recover_files. rewrite !lookup_delete_ne, HP, HT by done. done. }
  destruct (session reader b (env s1)).2 as [fs1 os1 ws1]. cbn [files] in Hr1.
  set (t1 := self s1). clearbody t1.
  assert (∃ o, _safe_rename (_primary_path a) (_backup_path a)
                 (State t1 (World fs1 os1 ws1))
               = (Ok tt, State t1 (World (<[_backup_path a := old]>
                                            (delete (_primary_path a) fs1)) o ws1)))
    as [o2 ->].
  { subst fs1. unfold_py. rewrite !lookup_delete_ne, HP by done. by eexists. }
  cbn [snd].
  assert (∃ o, _safe_rename (_temporary_path a) (_primary_path a)
                 (State t1 (World (<[_backup_path a := old]>
                                     (delete (_primary_path a) fs1)) o2 ws1))
               = (Ok tt, State t1 (World (<[_backup_path a := old]>
                                            (delete (_primary_path a) fs1)) o ws1)))
    as [o3 ->].
  { subst fs1. unfold_py.
    rewrite lookup_insert_ne, lookup_delete_ne, lookup_delete_eq by done.
    by eexists. }
  cbn [snd env files]. subst fs1.
  split; [|split].
  - rewrite lookup_insert_ne by done. apply lookup_delete_eq.
  - apply lookup_insert_eq.
  - rewrite lookup_insert_ne, lookup_delete_ne by done. apply lookup_delete_eq.
Qed.

Lemma interrupted_commit_serves_old_or_new_witness :
  files (env (__enter__ (State (two_phase_open (OpenArgs "f" Mr))
                           (env (_safe_delete "f.bak"
                                   (State writing_object written_world)).2))).2)
    !! "f" = Some "old".
Proof.
  exact (f_equal snd (proj1 (proj2 (interrupted_commit_serves_old_or_new
                                      writing_object written_world
                                      "old" "new" eq_refl eq_refl)))).
Defined.

(** X16.  The handle of a writable session is always on a fresh, empty T
    at position 0, whatever T held before the session and whatever the
    mode: nothing of a stale temporary file can end up in what the
    session commits. *)
Theorem writable_handle_is_fresh (a : open_args) (w : world) (f : file_obj)
    (s1 : state) :
  __enter__ (State (two_phase_open a) w) = (Ok f, s1) →
  file_writable f = true →
  name f = _temporary_path a ∧ pos f = 0 ∧
  files (env s1) !! _temporary_path a = Some "".
Proof.
  intros He Hfw.
  destruct (enter_ok_inv _ _ _ _ He) as (_ & _ & _ & _ & _ & Hpos & _ & Hcase).
  cbn [two_phase_open __init__ _args] in Hcase.
  destruct Hcase as [(_ & _ & _ & Hname & Hfs) | (Hro & _)]; [|congruence].
  repeat split; try done. rewrite Hfs. apply lookup_insert_eq.
Qed.

Lemma writable_handle_is_fresh_witness :
  files (env (__enter__ (State (two_phase_open (OpenArgs "f" Ma)) written_world)).2)
    !! "f.tmp" = Some "".
Proof.
  pose proof (writable_handle_is_fresh (OpenArgs "f" Ma) written_world) as H.
  destruct (__enter__ (State (two_phase_open (OpenArgs "f" Ma)) written_world))
    as [r s1] eqn:He.
  assert (r = Ok {| name := "f.tmp"; fmode := Ma; pos := 0 |}) as ->.
  { change r with (r, s1).1. rewrite <- He. vm_compute. reflexivity. }
  exact (proj2 (proj2 (H _ _ eq_refl eq_refl))).
Defined.

(** X17.  The first commit, with neither P nor B, is one rename: a read
    that comes before it raises [FileNotFoundError] (and removes T), a read
    that comes after it returns the new content, and the rename alone
    leaves the files [_close] leaves; no backup is created. *)
Theorem first_commit_switches_atomically (t : TwoPhaser) (w : world) (new : string) :
  files w !! _primary_path (_args t) = None →
  files w !! _backup_path (_args t) = None →
  files w !! _temporary_path (_args t) = Some new →
  let a := _args t in
  let reader := {| primary := primary a; config := Mr |} in
  let s0 := State t w in
  let s1 := (_safe_rename (_temporary_path a) (_primary_path a) s0).2 in
  (session reader [DoRead] (env s0)).1 = Raise FileNotFoundError ∧
  (session reader [DoRead] (env s1)).1 = Ok [new] ∧
  files (env s1) !! _backup_path a = None ∧
  (∀ f, _file t = Some f → _writable t = Some true →
        files (env (_close true s0).2) = files (env s1)).
Proof.
  intros HP HB HT a reader s0 s1. fold a in HP, HB, HT.
  rewrite !(session_read_outcome reader) by done.
  unfold reader. rewrite !read_outcome_primary_only.
  destruct w as [fs os ws]. cbn [files] in HP, HB, HT. name_paths a.
  assert (files (env s1) = commit_files a fs) as Hs1.
  { unfold s1, s0, commit_files. rewrite HP. unfold_py. by rewrite HT. }
  rewrite Hs1. unfold s0. cbn [env files].
  unfold read_outcome, recovered_primary.
  rewrite commit_files_primary, commit_files_temporary, !commit_files_backup.
  rewrite HP, HB, HT. do 3 (split; [done|]).
  intros f Hf Hw.
  destruct (_close_run t (World fs os ws) f true true Hf Hw) as (os' & ->).
  done.
Qed.

Lemma first_commit_switches_atomically_witness :
  (session (OpenArgs "f" Mr) [DoRead]
     {| files := {[ "f.tmp" := "new" ]}; ops := []; warnings := [] |}).1
    = Raise FileNotFoundError.
Proof.
  exact (proj1 (first_commit_switches_atomically
                  (two_phase_open (OpenArgs "f" Mw))
                  {| files := {[ "f.tmp" := "new" ]}; ops := []; warnings := [] |}
                  "new" eq_refl eq_refl eq_refl)).
Defined.

(* --------------------------------------------------------------------- *)
(*  31. The repository's tests, run on the model                         *)
(* --------------------------------------------------------------------- *)

Module Tests.

Example test_simple_read_failure :
  (staged_read (staged false false false)).1 = Raise FileNotFoundError.
Proof. reflexivity. Qed.

Example test_simple_read_success :
  (staged_read (staged true false false)).1 = Ok ["primary text"].
Proof. reflexivity. Qed.

Example test_simple_write_read_success :
  let w1 := (staged_write "one" (staged false false false)).2 in
  let w2 := (staged_write "two" w1).2 in
  let w3 := (staged_write "three" w2).2 in
  files_present w1 = [true; false; false; false] ∧ (staged_read w1).1 = Ok ["one"] ∧
  files_present w2 = [true; true; false; false] ∧ (staged_read w2).1 = Ok ["two"] ∧
  files w2 !! "s.txt.bak" = Some "one" ∧
  files_present w3 = [true; true; false; false] ∧ (staged_read w3).1 = Ok ["three"] ∧
  files w3 !! "s.txt.bak" = Some "two".
Proof. vm_compute. by repeat split. Qed.

Example test_recovery_havetemporary_haveprimary_nobackup :
  (staged_read (staged true false true)).1 = Ok ["primary text"] ∧
  files_present (staged_read (staged true false true)).2 = [true; false; false; false].
Proof. vm_compute. by split. Qed.

Example test_recovery_havetemporary_haveprimary_havebackup :
  (staged_read (staged true true true)).1 = Ok ["primary text"] ∧
  files_present (staged_read (staged true true true)).2 = [true; true; false; false].
Proof. vm_compute. by split. Qed.

Example test_recovery_havetemporary_noprimary_havebackup :
  (staged_read (staged false true true)).1 = Ok ["temporary text"] ∧
  files_present (staged_read (staged false true true)).2 = [true; true; false; false].
Proof. vm_compute. by split. Qed.

Example test_recovery_havetemporary_noprimary_nobackup :
  (staged_read (staged false false true)).1 = Raise FileNotFoundError ∧
  files_present (staged_read (staged false false true)).2 = [false; false; false; false].
Proof. vm_compute. by split. Qed.

Example test_recovery_notemporary_noprimary_havebackup_reading :
  (staged_read (staged false true false)).1 = Ok ["backup text"] ∧
  files_present (staged_read (staged false true false)).2 = [false; true; false; false] ∧
  warnings (staged_read (staged false true false)).2
    = [WarnReadingFromBackup "s.txt.bak"].
Proof. vm_compute. by repeat split. Qed.

Example test_recovery_notemporary_noprimary_havebackup_writing :
  let w1 := (staged_write "fresh" (staged false true false)).2 in
  files_present w1 = [true; true; false; false] ∧
  (staged_read w1).1 = Ok ["fresh"] ∧ files w1 !! "s.txt.bak" = Some "backup text".
Proof. vm_compute. by repeat split. Qed.

End Tests.
